(** * fastText orchestration engine (src/fasttext.cc): a shallow embedding

    The embedding follows [src/src/fasttext.cc].  The four collaborators
    of the file ([Args], [Dictionary], [Matrix]/[Vector], [Model]) live in
    other translation units; they appear here as records and interfaces,
    and every assumption made on them is a named hypothesis.

    Numbers.  [int32_t]/[int64_t] values are integers of [Z].  Where a
    caller chooses the operands (the partition offset of line 250, the
    counters and the product [k * nexamples] of [test]) the result is
    reduced to the signed word of the source, [wrap64] or [wrap32];
    positions inside a line and token counts stay far below the word
    size.  [real] and [double] values go through the interface
    [RealOps], instantiated by exact rationals ([Q]) and by IEEE
    binary64 ([PrimFloat]). *)

From Stdlib Require Import ZArith QArith Qfield List Bool Lia Floats Uint63.
From Stdlib Require String.
Import ListNotations.
Import String.StringSyntax.
Delimit Scope string_scope with string.

Definition string : Set := String.string.

Local Open Scope Z_scope.

(** ** Arithmetic of [real] and [double] *)

Class RealOps (R : Type) : Type := {
  rzero : R;
  rone : R;
  radd : R -> R -> R;
  rsub : R -> R -> R;
  rmul : R -> R -> R;
  rdiv : R -> R -> R;
  of_int : Z -> R
}.

#[global] Instance Q_ops : RealOps Q := {|
  rzero := 0%Q;
  rone := 1%Q;
  radd := Qplus;
  rsub := Qminus;
  rmul := Qmult;
  rdiv := Qdiv;
  of_int := inject_Z
|}.

(** Conversion of a (small) C++ integer to [double]. *)
Definition double_of_int (z : Z) : float :=
  if z <? 0 then PrimFloat.opp (PrimFloat.of_uint63 (Uint63.of_Z (- z)))
  else PrimFloat.of_uint63 (Uint63.of_Z z).

#[global] Instance double_ops : RealOps float := {|
  rzero := 0%float;
  rone := 1%float;
  radd := PrimFloat.add;
  rsub := PrimFloat.sub;
  rmul := PrimFloat.mul;
  rdiv := PrimFloat.div;
  of_int := double_of_int
|}.

(** The value of an integer result in a signed 32-bit and in a signed
    64-bit word (two's complement). *)
Definition wrap32 (x : Z) : Z :=
  (x + 2147483648) mod 4294967296 - 2147483648.

Definition wrap64 (x : Z) : Z :=
  (x + 9223372036854775808) mod 18446744073709551616 - 9223372036854775808.

(** [size()] of a [std::vector], as a C++ integer. *)
Definition size {A : Type} (l : list A) : Z := Z.of_nat (length l).

(** [v[i]] for an in-range index (the files never index out of range on
    the paths modelled here; out of range the default is returned). *)
Definition at_index {A : Type} (d : A) (l : list A) (i : Z) : A :=
  if i <? 0 then d else nth (Z.to_nat i) l d.

(** The integers [lo, lo+1, ..., lo+n-1]: the values a [for] counter takes. *)
Fixpoint zrange (lo : Z) (n : nat) : list Z :=
  match n with
  | O => []
  | S k => lo :: zrange (lo + 1) k
  end.

(** ** Vector and Matrix *)

Section Dense.
Context {R : Type} {RO : RealOps R}.

(** A [Vector] is its [data_]; [m_] is the length. *)
Definition Vector : Type := list R.

(** A row-major dense matrix, as [mat->data_[i * dim + j]] reads it
    (fasttext.cc, loadVectors). *)
Record Matrix : Type := mkMatrix {
  m_ : Z;
  n_ : Z;
  data_ : list R
}.

Definition Matrix_at (A : Matrix) (i j : Z) : R :=
  at_index rzero (data_ A) (i * n_ A + j).

Fixpoint imap_from {A B : Type} (f : Z -> A -> B) (j : Z) (l : list A) : list B :=
  match l with
  | [] => []
  | x :: t => f j x :: imap_from f (j + 1) t
  end.

(** Modelled from the spec: [Vector::zero], part of the "low-level dense
    matrix/vector arithmetic" collaborator: every component becomes 0. *)
Definition Vector_zero (v : Vector) : Vector := map (fun _ => rzero) v.

(** Modelled from the spec: [Vector::addRow(A, i)], which adds the
    embedding row [i] of [A] to the vector, component by component. *)
Definition Vector_addRow (v : Vector) (A : Matrix) (i : Z) : Vector :=
  imap_from (fun j x => radd x (Matrix_at A i j)) 0 v.

(** Modelled from the spec: [Vector::mul(a)], which scales every
    component by [a]. *)
Definition Vector_mul (v : Vector) (a : R) : Vector :=
  map (fun x => rmul x a) v.

End Dense.

Arguments Vector R : clear implicits.
Arguments Matrix R : clear implicits.

(** ** The collaborators *)

(** [model_name] of args.h: the objective selector. *)
Module model_name.
Inductive t : Set := cbow | sg | sup.
End model_name.

(** [entry_type] of dictionary.h. *)
Module entry_type.
Inductive t : Set := word | label.
End entry_type.

(** The fields of [Args] that fasttext.cc reads. *)
Record Args (R : Type) : Type := mkArgs {
  input : string;
  output : string;
  pretrainedVectors : string;
  lr : R;
  lrUpdateRate : Z;
  dim : Z;
  ws : Z;
  epoch : Z;
  thread : Z;
  wordNgrams : Z;
  bucket : Z;
  verbose : Z;
  model : model_name.t
}.

Arguments input {R} _.
Arguments output {R} _.
Arguments pretrainedVectors {R} _.
Arguments lr {R} _.
Arguments lrUpdateRate {R} _.
Arguments dim {R} _.
Arguments ws {R} _.
Arguments epoch {R} _.
Arguments thread {R} _.
Arguments wordNgrams {R} _.
Arguments bucket {R} _.
Arguments verbose {R} _.
Arguments model {R} _.

(** The methods of [Dictionary] that fasttext.cc calls on an already
    built vocabulary.  [getNgrams] is overloaded in the source: by word
    and by word id. *)
Class DictionaryOps (D : Type) : Type := {
  getNgrams : D -> string -> list Z;
  getNgramsId : D -> Z -> list Z;
  addNgrams : D -> list Z -> Z -> list Z;
  getLabel : D -> Z -> string;
  getCounts : D -> entry_type.t -> list Z;
  nwords : D -> Z;
  nlabels : D -> Z;
  ntokens : D -> Z
}.

(** The generator [model.rng] with [std::uniform_int_distribution<>(a, b)]
    applied to it: a draw returns the value and the advanced generator.
    [rng_seed] is the seeding done by the [Model] constructor. *)
Class RngOps (G : Type) : Type := {
  rng_seed : Z -> G;
  uniform_int : Z -> Z -> G -> Z * G
}.

(** The law of [std::uniform_int_distribution]: a draw lies in [a, b]. *)
Definition uniform_in_range (G : Type) {RG : RngOps G} : Prop :=
  forall a b g, a <= b -> a <= fst (uniform_int a b g) <= b.

(** A generator for concrete runs: a linear congruential generator. *)
Definition lcg_next (g : Z) : Z := (g * 1103515245 + 12345) mod 2147483648.

#[global] Instance lcg_rng : RngOps Z := {|
  rng_seed := fun seed => seed;
  uniform_int := fun a b g => (a + lcg_next g mod (b - a + 1), lcg_next g)
|}.

(** A generator that replays a fixed tape of raw draws (the tape gives the
    offset of each draw from the lower bound, reduced to the range). *)
#[global] Instance tape_rng : RngOps (list Z) := {|
  rng_seed := fun _ => [];
  uniform_int := fun a b g =>
    match g with
    | [] => (a, [])
    | x :: t => (a + x mod (b - a + 1), t)
    end
|}.

(** ** The optimizer instance *)

Section ModelState.
Context {R : Type} {G : Type}.

(** One call of [Model::update(input, target, lr)]. *)
Record Update : Type := mkUpdate {
  u_input : list Z;
  u_target : Z;
  u_lr : R
}.

(** What fasttext.cc observes of a [Model]: its generator, the target
    counts given to [setTargetCounts], and the calls of [update] made
    so far (oldest first).  The numerical effect of an update on the
    shared matrices belongs to model.cc. *)
Record Model : Type := mkModel {
  rng : G;
  targetCounts : list Z;
  updates : list Update
}.

Definition set_rng (m : Model) (g : G) : Model :=
  {| rng := g; targetCounts := targetCounts m; updates := updates m |}.

Definition setTargetCounts (m : Model) (counts : list Z) : Model :=
  {| rng := rng m; targetCounts := counts; updates := updates m |}.

Definition Model_update (m : Model) (inp : list Z) (target : Z) (l : R) : Model :=
  {| rng := rng m; targetCounts := targetCounts m;
     updates := updates m ++ [mkUpdate inp target l] |}.

End ModelState.

Arguments Update R : clear implicits.
Arguments Model R G : clear implicits.

(** Sequencing of steps that may fail. *)
Notation "x <- e ;; k" :=
  (match e with Some x => k | None => None end)
  (at level 61, e at next level, right associativity).

(** ** The engine: class [FastText] *)

(** An input stream of examples, as [Dictionary::getLine] tokenizes it:
    one entry per line still to be read, holding the token ids and the
    label ids of that line ([getLine] clears both vectors before it
    fills them).  [in.peek() != EOF] is "the list is not empty". *)
Definition IStream : Type := list (list Z * list Z).

Definition getLine (in_ : IStream) : (list Z * list Z) * IStream :=
  match in_ with
  | [] => (([], []), [])
  | l :: rest => (l, rest)
  end.

Section Engine.
Context {R : Type} {RO : RealOps R}.
Context {G : Type} {RG : RngOps G}.
Context {D : Type} {DO : DictionaryOps D}.

(** [Model::predict(line, k, heap)]: the at most [k] best labels with
    their scores, best first (model.cc). *)
Variable Model_predict : list Z -> Z -> list (R * Z).

(** [exp] of <cmath> and the printing of a number by [operator<<]. *)
Variable rexp : R -> R.
Variable show_real : R -> string.

(** The members of [FastText] but [tokenCount] and [start], which only
    training uses; [tokenCount] is part of [TrainState] below. *)
Record FastText : Type := mkFastText {
  args_ : Args R;
  dict_ : D;
  input_ : Matrix R;
  output_ : Matrix R;
  model_ : Model R G
}.

Definition model_name_of (ft : FastText) : model_name.t := model (args_ ft).

(** *** getVector (lines 21-30) *)
Definition getVector (ft : FastText) (vec : Vector R) (word : string) : Vector R :=
  let ngrams := getNgrams (dict_ ft) word in
  let vec := Vector_zero vec in
  let vec := fold_left (fun v it => Vector_addRow v (input_ ft) it) ngrams vec in
  if 0 <? size ngrams
  then Vector_mul vec (rdiv rone (of_int (size ngrams)))
  else vec.

(** *** supervised (lines 104-113) *)
Definition supervised (model : Model R G) (lr : R) (line labels : list Z)
  : Model R G :=
  if (size labels =? 0) || (size line =? 0) then model
  else
    let '(i, g) := uniform_int 0 (size labels - 1) (rng model) in
    let model := set_rng model g in
    Model_update model line (at_index 0 labels i) lr.

(** *** cbow (lines 115-135) *)

(** The inner loop over [c]: the bag of input ids built for centre [w]. *)
Definition cbow_bow (ft : FastText) (line : list Z) (w boundary : Z) : list Z :=
  fold_left
    (fun bow c =>
       if negb (c =? 0) && (0 <=? w + c) && (w + c <? size line)
       then bow ++ getNgramsId (dict_ ft) (at_index 0 line (w + c))
       else bow)
    (zrange (- boundary) (Z.to_nat (boundary - (- boundary) + 1)))
    [].

Definition cbow (ft : FastText) (model : Model R G) (lr : R) (line : list Z)
  : Model R G :=
  fold_left
    (fun model w =>
       let '(boundary, g) := uniform_int 1 (ws (args_ ft)) (rng model) in
       let model := set_rng model g in
       let bow := cbow_bow ft line w boundary in
       Model_update model bow (at_index 0 line w) lr)
    (zrange 0 (length line))
    model.

(** *** skipgram (lines 137-149) *)
Definition skipgram (ft : FastText) (model : Model R G) (lr : R) (line : list Z)
  : Model R G :=
  fold_left
    (fun model w =>
       let '(boundary, g) := uniform_int 1 (ws (args_ ft)) (rng model) in
       let model := set_rng model g in
       let ngrams := getNgramsId (dict_ ft) (at_index 0 line w) in
       fold_left
         (fun model c =>
            if negb (c =? 0) && (0 <=? w + c) && (w + c <? size line)
            then Model_update model ngrams (at_index 0 line (w + c)) lr
            else model)
         (zrange (- boundary) (Z.to_nat (boundary - (- boundary) + 1)))
         model)
    (zrange 0 (length line))
    model.

(** *** test (lines 151-175) *)

(** The three values [test] prints. *)
Record TestOutput : Type := mkTestOutput {
  P_at_k : R;
  R_at_k : R;
  number_of_examples : Z
}.

(** The locals [nexamples], [nlabels] (both [int32_t]) and [precision]. *)
Record TestAcc : Type := mkTestAcc {
  nexamples : Z;
  nlabels_seen : Z;
  precision : R
}.

(** [std::find(labels.begin(), labels.end(), x) != labels.end()]. *)
Definition found (labels : list Z) (x : Z) : bool := existsb (Z.eqb x) labels.

Definition test_line (ft : FastText) (k : Z) (acc : TestAcc) (ex : list Z * list Z)
  : TestAcc :=
  let '(line0, labels) := ex in
  let line := addNgrams (dict_ ft) line0 (wordNgrams (args_ ft)) in
  if (0 <? size labels) && (0 <? size line) then
    let modelPredictions := Model_predict line k in
    let precision :=
      fold_left
        (fun p it => if found labels (snd it) then radd p rone else p)
        modelPredictions (precision acc) in
    {| nexamples := wrap32 (nexamples acc + 1);
       nlabels_seen := wrap32 (nlabels_seen acc + size labels);
       precision := precision |}
  else acc.

Definition test (ft : FastText) (in_ : IStream) (k : Z) : TestOutput :=
  let acc := fold_left (test_line ft k) in_
               {| nexamples := 0; nlabels_seen := 0; precision := rzero |} in
  {| P_at_k := rdiv (precision acc) (of_int (wrap32 (k * nexamples acc)));
     R_at_k := rdiv (precision acc) (of_int (nlabels_seen acc));
     number_of_examples := nexamples acc |}.

(** *** predict, one example (lines 177-191)

    [predictions] is a reference parameter: the function returns its
    content after the call, next to the advanced stream. *)
Definition predict (ft : FastText) (in_ : IStream) (k : Z)
    (predictions : list (R * string)) : IStream * list (R * string) :=
  let '((words0, labels), in_) := getLine in_ in
  let words := addNgrams (dict_ ft) words0 (wordNgrams (args_ ft)) in
  if (size words =? 0) then (in_, predictions)
  else
    let modelPredictions := Model_predict words k in
    let predictions := @nil (R * string) in
    let predictions :=
      fold_left
        (fun ps it => ps ++ [(fst it, getLabel (dict_ ft) (snd it))])
        modelPredictions predictions in
    (in_, predictions).

(** *** predict, the streaming mode (lines 193-212)

    The text written to [std::cout], one string per line. *)
Fixpoint print_predictions (print_prob : bool) (first : bool)
    (ps : list (R * string)) : string :=
  match ps with
  | [] => String.EmptyString
  | it :: t =>
      String.append (if first then String.EmptyString else " "%string)
        (String.append (snd it)
           (String.append
              (if print_prob
               then String.append " "%string (show_real (rexp (fst it)))
               else String.EmptyString)
              (print_predictions print_prob false t)))
  end.

(** The loop: [predictions] is declared once, before the loop, and the
    same vector is handed to every call of [predict]. *)
Fixpoint predict_loop (ft : FastText) (in_ : IStream) (k : Z) (print_prob : bool)
    (predictions : list (R * string)) (cout : list string) : list string :=
  match in_ with
  | [] => cout
  | ex :: rest =>
      let predictions := snd (predict ft (ex :: rest) k predictions) in
      match predictions with
      | [] => predict_loop ft rest k print_prob predictions (cout ++ ["n/a"%string])
      | _ :: _ =>
          predict_loop ft rest k print_prob predictions
            (cout ++ [print_predictions print_prob true predictions])
      end
  end.

Definition predict_print (ft : FastText) (in_ : IStream) (k : Z) (print_prob : bool)
  : list string :=
  predict_loop ft in_ k print_prob [] [].

(** *** trainThread (lines 248-288) *)

(** The partition offset handed to [utils::seek] (line 250):
    [threadId] is promoted to the [int64_t] of [utils::size], the product
    is taken in that word, and C++ division truncates. *)
Definition partition_offset (threadId total_size nthread : Z) : Z :=
  Z.quot (wrap64 (threadId * total_size)) nthread.

(** The training file: [std::ifstream], [utils::size], [utils::seek] and
    the reader [Dictionary::getLine], which returns the number of tokens
    read and consumes the generator (subsampling). *)
Variable IFS : Type.
Variable ifstream_open : string -> IFS.
Variable utils_size : IFS -> Z.
Variable utils_seek : IFS -> Z -> IFS.

Record GetLine : Type := mkGetLine {
  gl_ntokens : Z;
  gl_line : list Z;
  gl_labels : list Z;
  gl_ifs : IFS;
  gl_rng : G
}.

Variable Dictionary_getLine : D -> IFS -> G -> GetLine.

(** One pass through the loop body, as recorded for the proofs. *)
Record Iteration : Type := mkIteration {
  it_tested : Z;      (* tokenCount as the loop condition read it *)
  it_read : Z;        (* tokenCount as line 263 read it *)
  it_progress : R;
  it_lr : R;
  it_updates : list (Update R);   (* the calls of update of this pass *)
  it_reported : bool  (* printInfo(progress, loss) was called *)
}.

(** The state of one worker.  [t_tokenCount] is the member [tokenCount]
    of the shared [FastText] object; the other workers add their own
    flushes to it at any time: [t_others] lists the amounts that arrive
    before each successive access of this worker to the counter (an
    empty list is a run with a single worker). *)
Record TrainState : Type := mkTrainState {
  t_tokenCount : Z;
  t_others : list Z;
  t_ifs : IFS;
  t_model : Model R G;
  t_local : Z;
  t_log : list Iteration
}.

Definition arrive (st : TrainState) : TrainState :=
  match t_others st with
  | [] => st
  | d :: rest =>
      {| t_tokenCount := t_tokenCount st + d; t_others := rest;
         t_ifs := t_ifs st; t_model := t_model st; t_local := t_local st;
         t_log := t_log st |}
  end.

(** Lines 267-274. *)
Definition dispatch (ft : FastText) (model : Model R G) (lr : R)
    (line labels : list Z) : Model R G :=
  match model_name_of ft with
  | model_name.sup =>
      let line := addNgrams (dict_ ft) line (wordNgrams (args_ ft)) in
      supervised model lr line labels
  | model_name.cbow => cbow ft model lr line
  | model_name.sg => skipgram ft model lr line
  end.

Definition loop_body (ft : FastText) (threadId ntokens : Z) (tested : Z)
    (st : TrainState) : TrainState :=
  let st := arrive st in
  let read := t_tokenCount st in
  let progress := rdiv (of_int read) (of_int (epoch (args_ ft) * ntokens)) in
  let lr := rmul (lr (args_ ft)) (rsub rone progress) in
  let gl := Dictionary_getLine (dict_ ft) (t_ifs st) (rng (t_model st)) in
  let localTokenCount := t_local st + gl_ntokens gl in
  let model0 := set_rng (t_model st) (gl_rng gl) in
  let model := dispatch ft model0 lr (gl_line gl) (gl_labels gl) in
  let new_updates := skipn (length (updates model0)) (updates model) in
  if lrUpdateRate (args_ ft) <? localTokenCount then
    let st := arrive st in
    {| t_tokenCount := t_tokenCount st + localTokenCount;
       t_others := t_others st;
       t_ifs := gl_ifs gl; t_model := model; t_local := 0;
       t_log := t_log st ++
         [mkIteration tested read progress lr new_updates
            ((threadId =? 0) && (1 <? verbose (args_ ft)))] |}
  else
    {| t_tokenCount := t_tokenCount st;
       t_others := t_others st;
       t_ifs := gl_ifs gl; t_model := model; t_local := localTokenCount;
       t_log := t_log st ++
         [mkIteration tested read progress lr new_updates false] |}.

(** The [while] loop, for at most [fuel] passes. *)
Fixpoint train_loop (fuel : nat) (ft : FastText) (threadId ntokens : Z)
    (st : TrainState) : TrainState :=
  match fuel with
  | O => st
  | S fuel =>
      let st := arrive st in
      let tested := t_tokenCount st in
      if tested <? epoch (args_ ft) * ntokens
      then train_loop fuel ft threadId ntokens (loop_body ft threadId ntokens tested st)
      else st
  end.

Definition trainThread (fuel : nat) (ft : FastText) (threadId : Z)
    (tokenCount0 : Z) (others : list Z) : TrainState :=
  let ifs := ifstream_open (input (args_ ft)) in
  let ifs := utils_seek ifs
               (partition_offset threadId (utils_size ifs) (thread (args_ ft))) in
  let model := mkModel (rng_seed threadId) [] [] in
  let model :=
    match model_name_of ft with
    | model_name.sup => setTargetCounts model (getCounts (dict_ ft) entry_type.label)
    | _ => setTargetCounts model (getCounts (dict_ ft) entry_type.word)
    end in
  let ntokens := ntokens (dict_ ft) in
  train_loop fuel ft threadId ntokens
    {| t_tokenCount := tokenCount0; t_others := others; t_ifs := ifs;
       t_model := model; t_local := 0; t_log := [] |}.

(** *** saveModel and loadModel (lines 48-59, 71-86) *)

(** The binary stream and the serializers of the collaborators
    ([Args::save]/[load], [Dictionary::save]/[load],
    [Matrix::save]/[load]).  A loader consumes a prefix of the stream
    and returns what is left; [Dictionary] is constructed from the
    loaded [Args] before it loads. *)
Variable cell : Type.
Variable Args_save : Args R -> list cell.
Variable Args_load : list cell -> option (Args R * list cell).
Variable Dictionary_save : D -> list cell.
Variable Dictionary_load : Args R -> list cell -> option (D * list cell).
Variable Matrix_save : Matrix R -> list cell.
Variable Matrix_load : list cell -> option (Matrix R * list cell).

(** What [saveModel] writes to the opened file. *)
Definition saveModel (ft : FastText) : list cell :=
  let ofs := [] in
  let ofs := ofs ++ Args_save (args_ ft) in
  let ofs := ofs ++ Dictionary_save (dict_ ft) in
  let ofs := ofs ++ Matrix_save (input_ ft) in
  let ofs := ofs ++ Matrix_save (output_ ft) in
  ofs.

(** [loadModel(std::istream&)]: the loaded object and the rest of the
    stream, or [None] when a collaborator cannot read its part. *)
Definition loadModel (in_ : list cell) : option (FastText * list cell) :=
  a <- Args_load in_ ;;
  d <- Dictionary_load (fst a) (snd a) ;;
  wi <- Matrix_load (snd d) ;;
  wo <- Matrix_load (snd wi) ;;
  let m := mkModel (rng_seed 0) [] [] in
  let m :=
    match model (fst a) with
    | model_name.sup => setTargetCounts m (getCounts (fst d) entry_type.label)
    | _ => setTargetCounts m (getCounts (fst d) entry_type.word)
    end in
  Some ({| args_ := fst a; dict_ := fst d; input_ := fst wi; output_ := fst wo;
           model_ := m |}, snd wo).

End Engine.

Arguments GetLine G IFS : clear implicits.
Arguments Iteration R : clear implicits.
Arguments TrainState R G IFS : clear implicits.
Arguments gl_ntokens {G IFS} _.
Arguments gl_line {G IFS} _.
Arguments gl_labels {G IFS} _.
Arguments gl_ifs {G IFS} _.
Arguments gl_rng {G IFS} _.
Arguments t_tokenCount {R G IFS} _.
Arguments t_others {R G IFS} _.
Arguments t_ifs {R G IFS} _.
Arguments t_model {R G IFS} _.
Arguments t_local {R G IFS} _.
Arguments t_log {R G IFS} _.
Arguments arrive {R G IFS} _.

(** ** The engine, continued: export, reporting, import *)

Section EngineExport.
Context {R : Type} {RO : RealOps R}.
Context {G : Type} {D : Type} {DO : DictionaryOps D}.

(** [Dictionary::getWord(int32_t)]. *)
Variable getWord : D -> Z -> string.

(** *** saveVectors (lines 32-46)

    What is written to the [.vec] file once it is open: the header
    [nwords dim] and one line per word.  [vec0] is the [Vector(dim)]
    allocated before the loop; the same vector is reused by every
    iteration. *)
Definition saveVectors (ft : @FastText R G D) (vec0 : Vector R)
  : (Z * Z) * list (string * Vector R) :=
  let header := (nwords (dict_ ft), dim (args_ ft)) in
  let st :=
    fold_left
      (fun (st : Vector R * list (string * Vector R)) i =>
         let word := getWord (dict_ ft) i in
         let vec := getVector ft (fst st) word in
         (vec, snd st ++ [(word, vec)]))
      (zrange 0 (Z.to_nat (nwords (dict_ ft))))
      (vec0, []) in
  (header, snd st).

(** *** wordVectors (lines 214-221)

    [cin] is the sequence of words that [std::cin >> word] extracts. *)
Definition wordVectors (ft : @FastText R G D) (vec0 : Vector R) (cin : list string)
  : list (string * Vector R) :=
  snd (fold_left
         (fun (st : Vector R * list (string * Vector R)) word =>
            let vec := getVector ft (fst st) word in
            (vec, snd st ++ [(word, vec)]))
         cin (vec0, [])).

(** *** textVectors (lines 223-238) *)
Definition textVectors_line (ft : @FastText R G D) (vec : Vector R)
    (ex : list Z * list Z) : Vector R :=
  let line := addNgrams (dict_ ft) (fst ex) (wordNgrams (args_ ft)) in
  let vec := Vector_zero vec in
  let vec := fold_left (fun v it => Vector_addRow v (input_ ft) it) line vec in
  if negb (size line =? 0)
  then Vector_mul vec (rdiv rone (of_int (size line)))
  else vec.

Definition textVectors (ft : @FastText R G D) (vec0 : Vector R) (cin : IStream)
  : list (Vector R) :=
  snd (fold_left
         (fun (st : Vector R * list (Vector R)) ex =>
            let vec := textVectors_line ft (fst st) ex in
            (vec, snd st ++ [vec]))
         cin (vec0, [])).

(** *** printInfo (lines 88-102)

    [t] is the elapsed time [real(clock() - start) / CLOCKS_PER_SEC] and
    [to_int] the conversion [int(x)].  The record holds the values
    printed after "Progress:", "words/sec/thread:", "lr:", "loss:" and
    "eta:". *)
Variable to_int : R -> Z.

Record InfoLine : Type := mkInfoLine {
  info_percent : R;
  info_wst : R;
  info_lr : R;
  info_loss : R;
  info_etah : Z;
  info_etam : Z
}.

Definition printInfo (ft : @FastText R G D) (t : R) (tokenCount : Z)
    (progress loss : R) : InfoLine :=
  let wst := rdiv (of_int tokenCount) t in
  let lr := rmul (lr (args_ ft)) (rsub rone progress) in
  let eta :=
    to_int (rdiv (rmul (rdiv t progress) (rsub rone progress))
              (of_int (thread (args_ ft)))) in
  let etah := Z.quot eta 3600 in
  let etam := Z.quot (eta - etah * 3600) 60 in
  {| info_percent := rmul (of_int 100) progress;
     info_wst := wst;
     info_lr := lr;
     info_loss := loss;
     info_etah := etah;
     info_etam := etam |}.

(** *** loadVectors (lines 290-328) *)

(** [Dictionary::getId], [add] and [threshold], and the allocation
    [Matrix(m, n)] followed by [uniform(a)]. *)
Variable getId : D -> string -> Z.
Variable Dictionary_add : D -> string -> D.
Variable Dictionary_threshold : D -> Z -> Z -> D.
Variable Matrix_uniform : Z -> Z -> R -> Matrix R.

(** The pretrained-vectors file as the reading loop of lines 299-314
    stores it: the two numbers of the header, the words in file order and
    the values, row after row, in [mat->data_]. *)
Record Pretrained : Type := mkPretrained {
  pt_n : Z;
  pt_dim : Z;
  pt_words : list string;
  pt_data : list R
}.

(** [A.data_[k] = x] for an index inside the array. *)
Fixpoint list_store {A : Type} (l : list A) (k : nat) (x : A) : list A :=
  match l, k with
  | [], _ => []
  | _ :: t, O => x :: t
  | y :: t, S k => y :: list_store t k x
  end.

Definition Matrix_store (A : Matrix R) (k : Z) (x : R) : Matrix R :=
  if k <? 0 then A
  else {| m_ := m_ A; n_ := n_ A; data_ := list_store (data_ A) (Z.to_nat k) x |}.

(** The inner loop of lines 324-326. *)
Definition copy_row (inp : Matrix R) (pt : Pretrained) (dim_ idx i : Z) : Matrix R :=
  fold_left
    (fun inp j =>
       Matrix_store inp (idx * dim_ + j) (at_index rzero (pt_data pt) (i * dim_ + j)))
    (zrange 0 (Z.to_nat dim_))
    inp.

(** The loop of lines 321-327. *)
Definition copy_rows (d : D) (inp : Matrix R) (pt : Pretrained) (rows : list Z)
  : Matrix R :=
  fold_left
    (fun inp i =>
       let idx := getId d (nth (Z.to_nat i) (pt_words pt) String.EmptyString) in
       if (idx <? 0) || (nwords d <=? idx) then inp
       else copy_row inp pt (pt_dim pt) idx i)
    rows
    inp.

(** [None] stands for a run that does not complete: [exit(EXIT_FAILURE)]
    when the file cannot be opened ([file] is [None]) or the dimensions
    differ, and the reading loops of lines 306-314 for a negative row
    count, or a negative dimension with rows to read: their counters are
    [size_t], against which a negative bound compares as a huge one. *)
Definition loadVectors (ft : @FastText R G D) (file : option Pretrained)
  : option (@FastText R G D) :=
  match file with
  | None => None
  | Some pt =>
      if negb (pt_dim pt =? dim (args_ ft)) then None
      else if (pt_n pt <? 0) || ((pt_dim pt <? 0) && (0 <? pt_n pt)) then None
      else
        let d := fold_left Dictionary_add (pt_words pt) (dict_ ft) in
        let d := Dictionary_threshold d 1 0 in
        let inp :=
          Matrix_uniform (nwords d + bucket (args_ ft)) (dim (args_ ft))
            (rdiv rone (of_int (dim (args_ ft)))) in
        let inp := copy_rows d inp pt (zrange 0 (Z.to_nat (pt_n pt))) in
        Some {| args_ := args_ ft; dict_ := d; input_ := inp;
                output_ := output_ ft; model_ := model_ ft |}
  end.

End EngineExport.

Arguments InfoLine R : clear implicits.
Arguments Pretrained R : clear implicits.
Arguments pt_n {R} _.
Arguments pt_dim {R} _.
Arguments pt_words {R} _.
Arguments pt_data {R} _.
Arguments info_percent {R} _.
Arguments info_wst {R} _.
Arguments info_lr {R} _.
Arguments info_loss {R} _.
Arguments info_etah {R} _.
Arguments info_etam {R} _.

(** * Reference notions used by the statements *)

(** Sum of a list of rationals. *)
Definition Qsum (l : list Q) : Q := fold_right Qplus 0%Q l.

(** The values of [n] successive draws of [uniform(model.rng)], and the
    generator after them. *)
Fixpoint draws {G : Type} {RG : RngOps G} (a b : Z) (n : nat) (g : G) : list Z * G :=
  match n with
  | O => ([], g)
  | S k =>
      let '(x, g1) := uniform_int a b g in
      let '(xs, g2) := draws a b k g1 in
      (x :: xs, g2)
  end.

(** The offsets [c] that pass the test of line 126 (and 144) for centre
    [w], radius [b] and a line of [n] tokens, in loop order. *)
Definition context_offsets (n w b : Z) : list Z :=
  filter (fun c => negb (c =? 0) && (0 <=? w + c) && (w + c <? n))
    (zrange (- b) (Z.to_nat (b - (- b) + 1))).

(** Number of calls of [update] made between two states of a model. *)
Definition issued {R G : Type} (before after : Model R G) : nat :=
  (length (updates after) - length (updates before))%nat.

(** The calls of [update] expected of CBOW for the centres [ps] drawn
    with the radii [bs]: one per centre, the input gathering the n-grams
    of the tokens at the offsets that pass the bounds test. *)
Definition cbow_expected {R G D : Type} {DO : DictionaryOps D}
    (ft : @FastText R G D) (lr : R) (line ps bs : list Z) : list (Update R) :=
  map (fun wb =>
         mkUpdate
           (flat_map (fun c => getNgramsId (dict_ ft) (at_index 0 line (fst wb + c)))
              (context_offsets (size line) (fst wb) (snd wb)))
           (at_index 0 line (fst wb)) lr)
    (combine ps bs).

(** The calls expected of skip-gram: one per centre and offset that passes the bounds test. *)
Definition skipgram_expected {R G D : Type} {DO : DictionaryOps D}
    (ft : @FastText R G D) (lr : R) (line ps bs : list Z) : list (Update R) :=
  flat_map (fun wb =>
              map (fun c =>
                     mkUpdate (getNgramsId (dict_ ft) (at_index 0 line (fst wb)))
                       (at_index 0 line (fst wb + c)) lr)
                (context_offsets (size line) (fst wb) (snd wb)))
    (combine ps bs).

(** A line of the stream has both tokens and labels. *)
Definition has_both (ex : list Z * list Z) : bool :=
  match fst ex, snd ex with
  | _ :: _, _ :: _ => true
  | _, _ => false
  end.

(** The top-k predictions of an example that are among its true labels. *)
Definition true_positives {R G D : Type} {DO : DictionaryOps D}
    (Model_predict : list Z -> Z -> list (R * Z))
    (ft : @FastText R G D) (k : Z) (ex : list Z * list Z) : Z :=
  size (filter (fun it => found (snd ex) (snd it))
          (Model_predict (addNgrams (dict_ ft) (fst ex) (wordNgrams (args_ ft))) k)).

Definition Zsum (l : list Z) : Z := fold_right Z.add 0 l.

(** [Dictionary::addNgrams] only appends to the line: an empty line stays
    empty and a line with tokens keeps them. *)
Definition addNgrams_keeps_emptiness (D : Type) {DO : DictionaryOps D} : Prop :=
  forall (d : D) (line : list Z) (n : Z), addNgrams d line n = [] <-> line = [].

(** The exact round trip asked of a collaborator's serializer: what it
    wrote is read back whatever follows it in the stream. *)
Definition roundtrips {A cell : Type} (save : A -> list cell)
    (load : list cell -> option (A * list cell)) : Prop :=
  forall (a : A) (rest : list cell), load (save a ++ rest) = Some (a, rest).

(** The counts from which the target-sampling distribution is rebuilt. *)
Definition target_entry (m : model_name.t) : entry_type.t :=
  match m with
  | model_name.sup => entry_type.label
  | _ => entry_type.word
  end.

(** ** Concrete collaborators, for running the engine *)

(** A small vocabulary: words and labels are numbered in list order; the
    n-grams of a word are the ids stored with it. *)
Record SmallDict : Type := mkSmallDict {
  sd_words : list (string * list Z);
  sd_labels : list string;
  sd_ntokens : Z
}.

Fixpoint sd_lookup (l : list (string * list Z)) (w : string) : list Z :=
  match l with
  | [] => []
  | (x, ids) :: t => if String.eqb x w then ids else sd_lookup t w
  end.

#[global] Instance small_dictionary : DictionaryOps SmallDict := {|
  getNgrams := fun d w => sd_lookup (sd_words d) w;
  getNgramsId := fun d i => snd (nth (Z.to_nat i) (sd_words d) (String.EmptyString, []));
  addNgrams := fun d line n =>
    line ++ (if 1 <? n then map (fun x => size (sd_words d) + x) (tl line) else []);
  getLabel := fun d i => nth (Z.to_nat i) (sd_labels d) String.EmptyString;
  getCounts := fun d t =>
    match t with
    | entry_type.word => map (fun _ => 1) (sd_words d)
    | entry_type.label => map (fun _ => 1) (sd_labels d)
    end;
  nwords := fun d => size (sd_words d);
  nlabels := fun d => size (sd_labels d);
  ntokens := sd_ntokens
|}.

Definition abc_dict : SmallDict :=
  {| sd_words := [("a"%string, [0; 3]); ("b"%string, [1; 4; 5]); ("c"%string, [2])];
     sd_labels := ["__label__x"%string; "__label__y"%string];
     sd_ntokens := 10 |}.

Definition abc_args (m : model_name.t) : Args Q :=
  {| input := "train.txt"%string; output := "model"%string;
     pretrainedVectors := String.EmptyString;
     lr := (1 # 10)%Q; lrUpdateRate := 2; dim := 2; ws := 2; epoch := 1; thread := 2;
     wordNgrams := 1; bucket := 3; verbose := 0; model := m |}.

(** Six rows of dimension 2: three words and three buckets. *)
Definition abc_input : Matrix Q :=
  {| m_ := 6; n_ := 2;
     data_ := [1; 2; 3; 4; 5; 6; 7; 8; 9; 10; 11; 12]%Q |}.

Definition abc_output : Matrix Q :=
  {| m_ := 2; n_ := 2; data_ := [0; 0; 0; 0]%Q |}.

Definition abc_model : Model Q Z :=
  {| rng := 0; targetCounts := [1; 1]; updates := [] |}.

Definition abc_ft (m : model_name.t) : @FastText Q Z SmallDict :=
  {| args_ := abc_args m; dict_ := abc_dict; input_ := abc_input;
     output_ := abc_output; model_ := abc_model |}.

(** A classifier that always answers label 0 when asked for a label. *)
Definition always_first (words : list Z) (k : Z) : list (Q * Z) :=
  if 0 <? k then [((-1 # 2)%Q, 0)] else [].

(** A classifier that answers the parity of the first token. *)
Definition parity_classifier (words : list Z) (k : Z) : list (Q * Z) :=
  if 0 <? k then [((-1 # 2)%Q, at_index 0 words 0 mod 2)] else [].

Definition no_show (x : Q) : string := String.EmptyString.

(** A training file that yields the same three-token line forever. *)
Definition loop_getLine (d : SmallDict) (ifs : Z) (g : Z) : GetLine Z Z :=
  {| gl_ntokens := 3; gl_line := [0; 1; 2]; gl_labels := [0];
     gl_ifs := ifs + 6; gl_rng := lcg_next g |}.

(** A stream of whole objects, one cell per serialized collaborator. *)
Inductive ObjCell : Type :=
| CArgs (a : Args Q)
| CDict (d : SmallDict)
| CMatrix (A : Matrix Q).

Definition obj_Args_save (a : Args Q) : list ObjCell := [CArgs a].
Definition obj_Args_load (s : list ObjCell) : option (Args Q * list ObjCell) :=
  match s with
  | CArgs a :: rest => Some (a, rest)
  | _ => None
  end.
Definition obj_Dictionary_save (d : SmallDict) : list ObjCell := [CDict d].
Definition obj_Dictionary_load (a : Args Q) (s : list ObjCell)
  : option (SmallDict * list ObjCell) :=
  match s with
  | CDict d :: rest => Some (d, rest)
  | _ => None
  end.
Definition obj_Matrix_save (A : Matrix Q) : list ObjCell := [CMatrix A].
Definition obj_Matrix_load (s : list ObjCell) : option (Matrix Q * list ObjCell) :=
  match s with
  | CMatrix A :: rest => Some (A, rest)
  | _ => None
  end.

(** What one pass of the training loop must satisfy, in exact
    arithmetic: the learning-rate formula, the progress read, the loop
    test, the sign of the progress, its bound when the counter did not
    move between the loop test and the read of line 263, and the learning
    rate of the updates of the pass. *)
Definition pass_ok {G D : Type} (ft : @FastText Q G D) (ntokens : Z)
    (it : Iteration Q) : Prop :=
  it_lr it = (lr (args_ ft) * (1 - it_progress it))%Q /\
  it_progress it =
    (inject_Z (it_read it) / inject_Z (epoch (args_ ft) * ntokens))%Q /\
  it_tested it < epoch (args_ ft) * ntokens /\
  0 <= it_tested it <= it_read it /\
  (0 <= it_progress it)%Q /\
  (it_read it = it_tested it -> (it_progress it < 1)%Q) /\
  Forall (fun u => u_lr u = it_lr it) (it_updates it).

(** The invariant of the training loop. *)
Definition train_inv {G D IFS : Type} (ft : @FastText Q G D) (ntokens : Z)
    (st : TrainState Q G IFS) : Prop :=
  0 <= t_tokenCount st /\
  Forall (fun d => 0 <= d) (t_others st) /\
  0 <= t_local st /\
  Forall (pass_ok ft ntokens) (t_log st).

(** The same model object over binary64, for the evaluation printout. *)
Definition abc_ft_double : @FastText float Z SmallDict :=
  {| args_ :=
       {| input := "train.txt"%string; output := "model"%string;
          pretrainedVectors := String.EmptyString;
          lr := 0.125%float; lrUpdateRate := 2; dim := 2; ws := 2; epoch := 1;
          thread := 2; wordNgrams := 1; bucket := 3; verbose := 0;
          model := model_name.sup |};
     dict_ := abc_dict;
     input_ := {| m_ := 0; n_ := 2; data_ := [] |};
     output_ := {| m_ := 0; n_ := 2; data_ := [] |};
     model_ := {| rng := 0; targetCounts := [1; 1]; updates := [] |} |}.


(** A labeled stream: two lines with tokens and one label each, one line
    without tokens and one without labels. *)
Definition abc_stream : IStream :=
  [([0; 1], [0]); ([1], [1]); ([], [0]); ([2], [])].

(** A stream in which no line has both tokens and labels. *)
Definition void_stream : IStream := [([], [0]); ([1], [])].

(** Two lines, each with tokens and one label. *)
Definition two_examples : IStream := [([0; 1], [0]); ([1], [1])].

Definition no_prediction (words : list Z) (k : Z) : list (float * Z) := [].

(** The file row, among [rows], from which row [r] of the input matrix is
    copied last by the loop of lines 321-327, if any. *)
Fixpoint row_source {D : Type} {DO : DictionaryOps D} (getId : D -> string -> Z)
    (d : D) (words : list string) (rows : list Z) (r : Z) : option Z :=
  match rows with
  | [] => None
  | i :: t =>
      match row_source getId d words t r with
      | Some i' => Some i'
      | None =>
          let idx := getId d (nth (Z.to_nat i) words String.EmptyString) in
          if negb ((idx <? 0) || (nwords d <=? idx)) && (idx =? r)
          then Some i else None
      end
  end.

(** More of the small vocabulary: word of an id, id of a word (-1 when
    absent), insertion of a new word at the end, and a threshold that
    removes nothing. *)
Definition small_getWord (d : SmallDict) (i : Z) : string :=
  fst (nth (Z.to_nat i) (sd_words d) (String.EmptyString, [])).

Fixpoint sd_index (l : list (string * list Z)) (w : string) (k : Z) : Z :=
  match l with
  | [] => -1
  | (x, _) :: t => if String.eqb x w then k else sd_index t w (k + 1)
  end.

Definition small_getId (d : SmallDict) (w : string) : Z := sd_index (sd_words d) w 0.

Definition small_add (d : SmallDict) (w : string) : SmallDict :=
  if small_getId d w <? 0
  then {| sd_words := sd_words d ++ [(w, [size (sd_words d)])];
          sd_labels := sd_labels d; sd_ntokens := sd_ntokens d + 1 |}
  else d.

Definition small_threshold (d : SmallDict) (t tl : Z) : SmallDict := d.

(** An initialisation that puts the bound [a] itself everywhere. *)
Definition flat_uniform (m n : Z) (a : Q) : Matrix Q :=
  {| m_ := m; n_ := n; data_ := repeat a (Z.to_nat (m * n)) |}.

(** Two pretrained rows of dimension 2: one for the known word "b", one
    for the new word "z". *)
Definition abc_pretrained : Pretrained Q :=
  {| pt_n := 2; pt_dim := 2; pt_words := ["b"%string; "z"%string];
     pt_data := [7; 8; 9; 10]%Q |}.

Definition abc_loaded : @FastText Q Z SmallDict :=
  match loadVectors small_getId small_add small_threshold flat_uniform
          (abc_ft model_name.sg) (Some abc_pretrained) with
  | Some ft' => ft'
  | None => abc_ft model_name.sg
  end.

(** [int(x)] on rationals: truncation toward zero. *)
Definition Q_to_int (x : Q) : Z := Z.quot (Qnum x) (Zpos (Qden x)).

Definition one_line_stream : IStream := [([0; 1], [])].

Definition wordless_example : list Z * list Z := ([], []).

(** The offset as the arithmetic of unbounded integers gives it:
    [i * total_size / T]. *)
Definition partition_offset_exact (i total_size T : Z) : Z :=
  (i * total_size) / T.

(** * Properties *)

(** ** Lists and counters *)

Lemma zrange_length (n : nat) (lo : Z) : length (zrange lo n) = n.
Proof.
  revert lo; induction n as [|n IH]; intro lo; simpl; [reflexivity|].
  now rewrite IH.
Qed.

Lemma zrange_In (n : nat) (lo x : Z) :
  In x (zrange lo n) <-> lo <= x < lo + Z.of_nat n.
Proof.
  revert lo; induction n as [|n IH]; intro lo.
  - simpl. lia.
  - cbn [zrange In]. rewrite IH. lia.
Qed.

Lemma zrange_nth (n : nat) (lo : Z) (i : nat) (d : Z) :
  (i < n)%nat -> nth i (zrange lo n) d = lo + Z.of_nat i.
Proof.
  revert lo i; induction n as [|n IH]; intros lo i Hi; [lia|].
  destruct i as [|i]; simpl zrange; cbn [nth]; [lia|].
  rewrite IH by lia. lia.
Qed.

Lemma zrange_app (n m : nat) (lo : Z) :
  zrange lo (n + m) = zrange lo n ++ zrange (lo + Z.of_nat n) m.
Proof.
  revert lo; induction n as [|n IH]; intro lo.
  - simpl. f_equal. lia.
  - cbn [zrange Nat.add app]. f_equal. rewrite IH. do 2 f_equal. lia.
Qed.

Lemma size_nil_iff {A : Type} (l : list A) : size l = 0 <-> l = [].
Proof.
  unfold size; destruct l; simpl; split; intro H; try reflexivity; try discriminate; lia.
Qed.


(** ** Vectors *)

Section DenseFacts.
Context {R : Type} {RO : RealOps R}.

Lemma imap_from_length {A B : Type} (f : Z -> A -> B) (l : list A) (k : Z) :
  length (imap_from f k l) = length l.
Proof.
  revert k; induction l as [|x l IH]; intro k; simpl; [reflexivity|].
  now rewrite IH.
Qed.

Lemma imap_from_nth {A B : Type} (f : Z -> A -> B) (l : list A) (k : Z)
    (j : nat) (da : A) (db : B) :
  (j < length l)%nat ->
  nth j (imap_from f k l) db = f (k + Z.of_nat j) (nth j l da).
Proof.
  revert k j; induction l as [|x l IH]; intros k j Hj; simpl in Hj; [lia|].
  destruct j as [|j]; simpl.
  - f_equal. lia.
  - rewrite IH by lia. f_equal. lia.
Qed.

Lemma Vector_addRow_length (v : Vector R) (A : Matrix R) (i : Z) :
  length (Vector_addRow v A i) = length v.
Proof. apply imap_from_length. Qed.

Lemma Vector_addRow_nth (v : Vector R) (A : Matrix R) (i : Z) (j : nat) (d : R) :
  (j < length v)%nat ->
  nth j (Vector_addRow v A i) d = radd (nth j v d) (Matrix_at A i (Z.of_nat j)).
Proof.
  intro Hj. unfold Vector_addRow.
  now rewrite (imap_from_nth _ v 0 j d d Hj).
Qed.

Lemma Vector_zero_repeat (v : Vector R) :
  Vector_zero v = repeat rzero (length v).
Proof.
  induction v as [|x v IH]; simpl; [reflexivity|]. now f_equal.
Qed.

(** Adding the rows one after the other adds, in every component, the
    entries of that column, in the same order. *)
Lemma addRows_length (A : Matrix R) (ngrams : list Z) (v : Vector R) :
  length (fold_left (fun v it => Vector_addRow v A it) ngrams v) = length v.
Proof.
  revert v; induction ngrams as [|g t IH]; intro v; simpl; [reflexivity|].
  now rewrite IH, Vector_addRow_length.
Qed.

Lemma addRows_nth (A : Matrix R) (ngrams : list Z) (v : Vector R) (j : nat) (d : R) :
  (j < length v)%nat ->
  nth j (fold_left (fun v it => Vector_addRow v A it) ngrams v) d =
  fold_left (fun acc g => radd acc (Matrix_at A g (Z.of_nat j))) ngrams (nth j v d).
Proof.
  revert v; induction ngrams as [|g t IH]; intros v Hj; simpl; [reflexivity|].
  rewrite IH by (now rewrite Vector_addRow_length).
  now rewrite Vector_addRow_nth.
Qed.

Lemma addRows_nil (A : Matrix R) (v : Vector R) :
  fold_left (fun v it => Vector_addRow v A it) [] v = v.
Proof. reflexivity. Qed.

End DenseFacts.

Lemma fold_left_Qplus (f : Z -> Q) (l : list Z) (a : Q) :
  (fold_left (fun acc g => radd acc (f g)) l a == a + Qsum (map f l))%Q.
Proof.
  revert a; induction l as [|g t IH]; intro a; simpl.
  - unfold Qsum; simpl. ring.
  - rewrite IH. unfold Qsum; simpl. ring.
Qed.

(** ** getVector *)

Section GetVectorFacts.
Context {R : Type} {RO : RealOps R}.
Context {G : Type} {D : Type} {DO : DictionaryOps D}.

Lemma getVector_length (ft : @FastText R G D) (vec : Vector R) (word : string) :
  length (getVector ft vec word) = length vec.
Proof.
  unfold getVector.
  destruct (0 <? size (getNgrams (dict_ ft) word)); unfold Vector_mul, Vector_zero;
    rewrite ?length_map, addRows_length, length_map; reflexivity.
Qed.

(** In any arithmetic (binary32 and binary64 included) a word without
    n-grams gets the vector of zeros: no addition and no scaling is
    performed. *)
Lemma getVector_no_ngrams (ft : @FastText R G D) (vec : Vector R) (word : string) :
  getNgrams (dict_ ft) word = [] ->
  getVector ft vec word = repeat rzero (length vec).
Proof.
  intro H. unfold getVector. rewrite H. simpl.
  apply Vector_zero_repeat.
Qed.

(** Component [j] of the result, for a word with n-grams: the column
    entries added from 0 in the order of the n-grams, then multiplied
    by [1.0 / ngrams.size()]. *)
Lemma getVector_nth (ft : @FastText R G D) (vec : Vector R) (word : string) (j : nat) :
  getNgrams (dict_ ft) word <> [] ->
  (j < length vec)%nat ->
  nth j (getVector ft vec word) rzero =
  rmul (fold_left (fun acc g => radd acc (Matrix_at (input_ ft) g (Z.of_nat j)))
          (getNgrams (dict_ ft) word) rzero)
       (rdiv rone (of_int (size (getNgrams (dict_ ft) word)))).
Proof.
  intros Hne Hj. unfold getVector.
  destruct (Z.ltb_spec 0 (size (getNgrams (dict_ ft) word))) as [Hpos|Hz].
  - unfold Vector_mul.
    assert (Hlen : (j < length (fold_left (fun v it => Vector_addRow v (input_ ft) it)
                        (getNgrams (dict_ ft) word) (Vector_zero vec)))%nat).
    { rewrite addRows_length. unfold Vector_zero. now rewrite length_map. }
    rewrite (nth_indep _ rzero (rmul rzero (rdiv rone (of_int (size (getNgrams (dict_ ft) word))))))
      by (now rewrite length_map).
    rewrite (map_nth (fun x => rmul x (rdiv rone (of_int (size (getNgrams (dict_ ft) word)))))).
    f_equal.
    rewrite addRows_nth by (unfold Vector_zero; now rewrite length_map).
    f_equal. rewrite Vector_zero_repeat. apply nth_repeat.
  - exfalso. apply Hne. apply size_nil_iff. unfold size in *. lia.
Qed.

End GetVectorFacts.

(** C1.  For every word, [getVector] returns, in exact arithmetic, the
    elementwise mean of the rows of the input matrix selected by the
    word's n-gram ids (component [j] is the sum of column [j] over those
    rows divided by their number), and returns the vector of zeros when
    the word has no n-gram. *)
Theorem getVector_mean {G D : Type} {DO : DictionaryOps D}
    (ft : @FastText Q G D) (vec : Vector Q) (word : string) :
  length (getVector ft vec word) = length vec /\
  (getNgrams (dict_ ft) word = [] ->
   getVector ft vec word = repeat 0%Q (length vec)) /\
  (getNgrams (dict_ ft) word <> [] ->
   forall j : nat, (j < length vec)%nat ->
     (nth j (getVector ft vec word) 0 ==
      Qsum (map (fun g => Matrix_at (input_ ft) g (Z.of_nat j))
              (getNgrams (dict_ ft) word))
      / inject_Z (size (getNgrams (dict_ ft) word)))%Q).
Proof.
  split; [apply getVector_length|].
  split; [exact (getVector_no_ngrams ft vec word)|].
  intros Hne j Hj.
  change 0%Q with (@rzero Q Q_ops).
  rewrite (getVector_nth ft vec word j Hne Hj).
  rewrite fold_left_Qplus. cbn [rmul rdiv rone rzero of_int Q_ops].
  assert (Hn : ~ (inject_Z (size (getNgrams (dict_ ft) word)) == 0)%Q).
  { intro E. apply Hne, size_nil_iff.
    unfold Qeq in E; simpl in E. lia. }
  field. exact Hn.
Qed.

(** ** The objectives *)




Section ObjectiveFacts.
Context {R : Type} {RO : RealOps R}.
Context {G : Type} {RG : RngOps G}.
Context {D : Type} {DO : DictionaryOps D}.



(** *** supervised *)

Lemma supervised_noop (model : Model R G) (lr : R) (line labels : list Z) :
  labels = [] \/ line = [] -> supervised model lr line labels = model.
Proof.
  intros [->| ->]; unfold supervised; simpl; [reflexivity|].
  now rewrite orb_true_r.
Qed.

Lemma supervised_updates (model : Model R G) (lr : R) (line labels : list Z) :
  labels <> [] -> line <> [] ->
  updates (supervised model lr line labels) =
  updates model ++
    [mkUpdate line
       (at_index 0 labels (fst (uniform_int 0 (size labels - 1) (rng model)))) lr].
Proof.
  intros Hl Hw. unfold supervised.
  destruct (Z.eqb_spec (size labels) 0) as [E|_];
    [now apply size_nil_iff in E|].
  destruct (Z.eqb_spec (size line) 0) as [E|_];
    [now apply size_nil_iff in E|].
  simpl. destruct (uniform_int 0 (size labels - 1) (rng model)) as [i g].
  reflexivity.
Qed.

(** Every call of [update] made by an objective carries the learning
    rate it was given. *)
Lemma supervised_appends (model : Model R G) (lr : R) (line labels : list Z) :
  exists new, updates (supervised model lr line labels) = updates model ++ new /\
              Forall (fun u => u_lr u = lr) new.
Proof.
  destruct labels as [|l0 labels].
  { exists []. rewrite supervised_noop by now left. now rewrite app_nil_r. }
  destruct line as [|t0 line].
  { exists []. rewrite supervised_noop by now right. now rewrite app_nil_r. }
  eexists. split; [apply supervised_updates; discriminate|].
  repeat constructor.
Qed.

(** *** The inner loops *)

Lemma cbow_bow_flat_map (ft : @FastText R G D) (line : list Z) (w b : Z) :
  cbow_bow ft line w b =
  flat_map (fun c => getNgramsId (dict_ ft) (at_index 0 line (w + c)))
    (context_offsets (size line) w b).
Proof.
  unfold cbow_bow, context_offsets.
  generalize (zrange (- b) (Z.to_nat (b - - b + 1))) as cs.
  intro cs. rewrite <- (app_nil_l (flat_map _ _)).
  generalize (@nil Z) as acc.
  induction cs as [|c cs IH]; intro acc; simpl.
  - now rewrite app_nil_r.
  - rewrite IH.
    destruct (negb (c =? 0) && (0 <=? w + c) && (w + c <? size line)); simpl;
      [now rewrite <- app_assoc|reflexivity].
Qed.

Lemma sg_inner_fold (lr : R) (line : list Z) (w : Z)
    (ngrams : list Z) (cs : list Z) (model : Model R G) :
  let m' :=
    fold_left
      (fun model c =>
         if negb (c =? 0) && (0 <=? w + c) && (w + c <? size line)
         then Model_update model ngrams (at_index 0 line (w + c)) lr
         else model) cs model in
  rng m' = rng model /\
  updates m' = updates model ++
    map (fun c => mkUpdate ngrams (at_index 0 line (w + c)) lr)
      (filter (fun c => negb (c =? 0) && (0 <=? w + c) && (w + c <? size line)) cs).
Proof.
  revert model; induction cs as [|c cs IH]; intro model; simpl.
  - now rewrite app_nil_r.
  - match goal with |- context [fold_left _ cs ?m] => destruct (IH m) as [Hr Hu] end.
    rewrite Hr, Hu.
    destruct (negb (c =? 0) && (0 <=? w + c) && (w + c <? size line)); simpl;
      [now rewrite <- app_assoc|tauto].
Qed.

(** *** The loops over the positions *)

Lemma cbow_fold (ft : @FastText R G D) (lr : R) (line : list Z) (ps : list Z)
    (model : Model R G) :
  let m' :=
    fold_left
      (fun model w =>
         let '(boundary, g) := uniform_int 1 (ws (args_ ft)) (rng model) in
         let model := set_rng model g in
         let bow := cbow_bow ft line w boundary in
         Model_update model bow (at_index 0 line w) lr) ps model in
  rng m' = snd (draws 1 (ws (args_ ft)) (length ps) (rng model)) /\
  updates m' = updates model ++
    cbow_expected ft lr line ps (fst (draws 1 (ws (args_ ft)) (length ps) (rng model))).
Proof.
  cbv zeta. revert model; induction ps as [|w ps IH]; intro model.
  - simpl. unfold cbow_expected. simpl. now rewrite app_nil_r.
  - cbn [fold_left length draws].
    destruct (uniform_int 1 (ws (args_ ft)) (rng model)) as [b g] eqn:Eu.
    match goal with |- context [fold_left _ ps ?m] => destruct (IH m) as [Hr Hu] end.
    rewrite Hr, Hu. cbn [rng updates Model_update set_rng].
    destruct (draws 1 (ws (args_ ft)) (length ps) g) as [bs g'].
    cbn [fst snd]. split; [reflexivity|].
    rewrite <- app_assoc. f_equal. unfold cbow_expected. cbn [combine map fst snd app].
    now rewrite cbow_bow_flat_map.
Qed.

Lemma skipgram_fold (ft : @FastText R G D) (lr : R) (line : list Z) (ps : list Z)
    (model : Model R G) :
  let m' :=
    fold_left
      (fun model w =>
         let '(boundary, g) := uniform_int 1 (ws (args_ ft)) (rng model) in
         let model := set_rng model g in
         let ngrams := getNgramsId (dict_ ft) (at_index 0 line w) in
         fold_left
           (fun model c =>
              if negb (c =? 0) && (0 <=? w + c) && (w + c <? size line)
              then Model_update model ngrams (at_index 0 line (w + c)) lr
              else model)
           (zrange (- boundary) (Z.to_nat (boundary - (- boundary) + 1)))
           model) ps model in
  rng m' = snd (draws 1 (ws (args_ ft)) (length ps) (rng model)) /\
  updates m' = updates model ++
    skipgram_expected ft lr line ps
      (fst (draws 1 (ws (args_ ft)) (length ps) (rng model))).
Proof.
  cbv zeta. revert model; induction ps as [|w ps IH]; intro model.
  - simpl. unfold skipgram_expected. simpl. now rewrite app_nil_r.
  - cbn [fold_left length draws].
    destruct (uniform_int 1 (ws (args_ ft)) (rng model)) as [b g] eqn:Eu.
    match goal with |- context [fold_left _ ps ?m] => destruct (IH m) as [Hr Hu] end.
    rewrite Hr, Hu.
    destruct (sg_inner_fold lr line w (getNgramsId (dict_ ft) (at_index 0 line w))
                (zrange (- b) (Z.to_nat (b - - b + 1))) (set_rng model g)) as [Hr' Hu'].
    cbn zeta in Hr', Hu'. rewrite Hr', Hu'. cbn [rng updates set_rng].
    destruct (draws 1 (ws (args_ ft)) (length ps) g) as [bs g'].
    cbn [fst snd]. split; [reflexivity|].
    rewrite <- app_assoc. f_equal.
Qed.

Lemma cbow_updates (ft : @FastText R G D) (model : Model R G) (lr : R) (line : list Z) :
  updates (cbow ft model lr line) = updates model ++
    cbow_expected ft lr line (zrange 0 (length line))
      (fst (draws 1 (ws (args_ ft)) (length line) (rng model))).
Proof.
  unfold cbow.
  destruct (cbow_fold ft lr line (zrange 0 (length line)) model) as [_ Hu].
  cbn zeta in Hu. rewrite Hu. now rewrite zrange_length.
Qed.

Lemma skipgram_updates (ft : @FastText R G D) (model : Model R G) (lr : R) (line : list Z) :
  updates (skipgram ft model lr line) = updates model ++
    skipgram_expected ft lr line (zrange 0 (length line))
      (fst (draws 1 (ws (args_ ft)) (length line) (rng model))).
Proof.
  unfold skipgram.
  destruct (skipgram_fold ft lr line (zrange 0 (length line)) model) as [_ Hu].
  cbn zeta in Hu. rewrite Hu. now rewrite zrange_length.
Qed.


Lemma cbow_expected_lr (ft : @FastText R G D) (lr : R) (line ps bs : list Z) :
  Forall (fun u => u_lr u = lr) (cbow_expected ft lr line ps bs).
Proof.
  unfold cbow_expected. apply Forall_forall. intros u Hu.
  apply in_map_iff in Hu. destruct Hu as [wb [<- _]]. reflexivity.
Qed.

Lemma skipgram_expected_lr (ft : @FastText R G D) (lr : R) (line ps bs : list Z) :
  Forall (fun u => u_lr u = lr) (skipgram_expected ft lr line ps bs).
Proof.
  unfold skipgram_expected. apply Forall_forall. intros u Hu.
  apply in_flat_map in Hu. destruct Hu as [wb [_ Hu]].
  apply in_map_iff in Hu. destruct Hu as [c [<- _]]. reflexivity.
Qed.

(** C3.  [supervised] makes no call of [update] when the label set or
    the line is empty (the model is returned unchanged); otherwise it
    makes exactly one call, whose input is the whole line, whose learning
    rate is the one received and whose target is [labels[i]], where [i]
    is the draw of the uniform distribution on [0, labels.size() - 1]: an
    index of the label set, so the target is one of its labels. *)
Theorem supervised_one_update (model : Model R G) (lr : R) (line labels : list Z) :
  uniform_in_range G ->
  (labels = [] \/ line = [] ->
   supervised model lr line labels = model /\
   issued model (supervised model lr line labels) = 0%nat) /\
  (labels <> [] -> line <> [] ->
   let i := fst (uniform_int 0 (size labels - 1) (rng model)) in
   0 <= i < size labels /\
   In (at_index 0 labels i) labels /\
   updates (supervised model lr line labels) =
     updates model ++ [mkUpdate line (at_index 0 labels i) lr] /\
   issued model (supervised model lr line labels) = 1%nat).
Proof.
  intro HU. split.
  - intro H. rewrite (supervised_noop model lr line labels H).
    split; [reflexivity|]. unfold issued. lia.
  - intros Hl Hw. cbv zeta.
    assert (Hsz : 0 < size labels).
    { destruct labels; [congruence|]. unfold size. simpl length. lia. }
    pose proof (HU 0 (size labels - 1) (rng model) ltac:(lia)) as Hr.
    set (i := fst (uniform_int 0 (size labels - 1) (rng model))) in *.
    split; [lia|]. split.
    + unfold at_index. destruct (Z.ltb_spec i 0); [lia|].
      apply nth_In. unfold size in *. lia.
    + rewrite (supervised_updates model lr line labels Hl Hw).
      split; [reflexivity|].
      unfold issued. rewrite (supervised_updates model lr line labels Hl Hw).
      rewrite length_app. simpl. lia.
Qed.




End ObjectiveFacts.


(** ** test *)

Section TestFacts.
Context {R : Type} {RO : RealOps R}.
Context {G : Type} {D : Type} {DO : DictionaryOps D}.
Variable Model_predict : list Z -> Z -> list (R * Z).

Lemma counted_iff_has_both (ft : @FastText R G D) (ex : list Z * list Z) :
  addNgrams_keeps_emptiness D ->
  (0 <? size (snd ex)) &&
  (0 <? size (addNgrams (dict_ ft) (fst ex) (wordNgrams (args_ ft)))) = has_both ex.
Proof.
  intro HA. destruct ex as [line0 labels]. unfold has_both. cbn [fst snd].
  pose proof (HA (dict_ ft) line0 (wordNgrams (args_ ft))) as H.
  destruct labels as [|y labels]; [now destruct line0|].
  destruct line0 as [|t line0].
  - replace (addNgrams (dict_ ft) [] (wordNgrams (args_ ft))) with (@nil Z)
      by (symmetry; now apply H).
    reflexivity.
  - destruct (addNgrams (dict_ ft) (t :: line0) (wordNgrams (args_ ft))) eqn:E.
    + exfalso. assert (X : t :: line0 = []) by now apply H. discriminate.
    + reflexivity.
Qed.

Lemma test_line_skipped (ft : @FastText R G D) (k : Z) (acc : TestAcc)
    (ex : list Z * list Z) :
  addNgrams_keeps_emptiness D ->
  has_both ex = false -> test_line Model_predict ft k acc ex = acc.
Proof.
  intros HA Hex. unfold test_line. destruct ex as [line0 labels].
  pose proof (counted_iff_has_both ft (line0, labels) HA) as E. cbn [fst snd] in E.
  rewrite E, Hex. reflexivity.
Qed.

(** A stream without any line having both tokens and labels leaves the
    three counters at their initial values. *)
Lemma test_fold_skipped (ft : @FastText R G D) (k : Z) (in_ : IStream) (acc : TestAcc) :
  addNgrams_keeps_emptiness D ->
  (forall ex, In ex in_ -> has_both ex = false) ->
  fold_left (test_line Model_predict ft k) in_ acc = acc.
Proof.
  intros HA. revert acc; induction in_ as [|ex in_ IH]; intros acc H; simpl; [reflexivity|].
  rewrite test_line_skipped by (auto; apply H; now left).
  apply IH. intros e He. apply H. now right.
Qed.

End TestFacts.

Lemma precision_fold_Q (labels : list Z) (preds : list (Q * Z)) (p0 : Q) :
  (fold_left (fun p it => if found labels (snd it) then radd p rone else p) preds p0 ==
   p0 + inject_Z (size (filter (fun it => found labels (snd it)) preds)))%Q.
Proof.
  revert p0; induction preds as [|it preds IH]; intro p0; simpl.
  - unfold size; simpl. ring.
  - rewrite IH. destruct (found labels (snd it)); [|reflexivity].
    unfold size. cbn [length radd rone Q_ops].
    rewrite Nat2Z.inj_succ, <- Z.add_1_l, inject_Z_plus. ring.
Qed.

Lemma wrap32_small (x : Z) :
  -2147483648 <= x < 2147483648 -> wrap32 x = x.
Proof. intro H. unfold wrap32. rewrite Z.mod_small by lia. lia. Qed.

Lemma Zsum_sizes_nonneg {A B : Type} (f : A -> list B) (l : list A) :
  0 <= Zsum (map (fun x => size (f x)) l).
Proof.
  induction l as [|x l IH]; cbn [map Zsum fold_right]; [lia|].
  fold (Zsum (map (fun x => size (f x)) l)). unfold size in *. lia.
Qed.

Section TestCountFacts.
Context {R : Type} {RO : RealOps R}.
Context {G : Type} {D : Type} {DO : DictionaryOps D}.
Variable Model_predict : list Z -> Z -> list (R * Z).

Lemma test_line_counted (ft : @FastText R G D) (k : Z) (acc : TestAcc)
    (ex : list Z * list Z) :
  addNgrams_keeps_emptiness D ->
  has_both ex = true ->
  test_line Model_predict ft k acc ex =
  {| nexamples := wrap32 (nexamples acc + 1);
     nlabels_seen := wrap32 (nlabels_seen acc + size (snd ex));
     precision :=
       fold_left (fun p it => if found (snd ex) (snd it) then radd p rone else p)
         (Model_predict (addNgrams (dict_ ft) (fst ex) (wordNgrams (args_ ft))) k)
         (precision acc) |}.
Proof.
  intros HA Hex. unfold test_line. destruct ex as [line0 labels].
  pose proof (counted_iff_has_both ft (line0, labels) HA) as E. cbn [fst snd] in *.
  now rewrite E, Hex.
Qed.

(** While it fits in 32 bits, the counter [nexamples] holds the number of
    lines with tokens and labels ... *)
Lemma test_fold_nexamples (ft : @FastText R G D) (k : Z) (in_ : IStream) (acc : TestAcc) :
  addNgrams_keeps_emptiness D ->
  0 <= nexamples acc ->
  nexamples acc + size (filter has_both in_) < 2147483648 ->
  nexamples (fold_left (test_line Model_predict ft k) in_ acc) =
  nexamples acc + size (filter has_both in_).
Proof.
  intro HA. revert acc; induction in_ as [|ex in_ IH]; intros acc Hn0 Hn.
  - simpl. unfold size; simpl. lia.
  - cbn [fold_left filter] in *.
    destruct (has_both ex) eqn:Hex.
    + assert (Hsz : size (ex :: filter has_both in_) = 1 + size (filter has_both in_))
        by (unfold size; cbn [length]; lia).
      assert (Hsz0 : 0 <= size (filter has_both in_)) by (unfold size; lia).
      rewrite Hsz in *.
      rewrite IH; rewrite (test_line_counted ft k acc ex HA Hex); cbn [nexamples];
        rewrite wrap32_small by lia; lia.
    + rewrite (test_line_skipped Model_predict ft k acc ex HA Hex). now apply IH.
Qed.

(** ... and [nlabels] the number of their labels. *)
Lemma test_fold_nlabels (ft : @FastText R G D) (k : Z) (in_ : IStream) (acc : TestAcc) :
  addNgrams_keeps_emptiness D ->
  0 <= nlabels_seen acc ->
  nlabels_seen acc + Zsum (map (fun ex => size (snd ex)) (filter has_both in_))
    < 2147483648 ->
  nlabels_seen (fold_left (test_line Model_predict ft k) in_ acc) =
  nlabels_seen acc + Zsum (map (fun ex => size (snd ex)) (filter has_both in_)).
Proof.
  intro HA. revert acc; induction in_ as [|ex in_ IH]; intros acc Hl0 Hl.
  - simpl. lia.
  - cbn [fold_left filter] in *.
    destruct (has_both ex) eqn:Hex.
    + cbn [map Zsum fold_right] in *.
      fold (Zsum (map (fun ex => size (snd ex)) (filter has_both in_))) in *.
      pose proof (Zsum_sizes_nonneg (fun ex : list Z * list Z => snd ex)
                    (filter has_both in_)) as Hs.
      assert (Hlab : 0 <= size (snd ex)) by (unfold size; lia).
      rewrite IH; rewrite (test_line_counted ft k acc ex HA Hex); cbn [nlabels_seen];
        rewrite wrap32_small by lia; lia.
    + rewrite (test_line_skipped Model_predict ft k acc ex HA Hex). now apply IH.
Qed.

End TestCountFacts.

(** The accumulated [precision] is, in exact arithmetic, the number of
    predictions found among the true labels. *)
Lemma test_fold_precision_Q {G D : Type} {DO : DictionaryOps D}
    (Model_predict : list Z -> Z -> list (Q * Z))
    (ft : @FastText Q G D) (k : Z) (in_ : IStream) (acc : TestAcc) :
  addNgrams_keeps_emptiness D ->
  (precision (fold_left (test_line Model_predict ft k) in_ acc) ==
   precision acc +
   inject_Z (Zsum (map (true_positives Model_predict ft k) (filter has_both in_))))%Q.
Proof.
  intro HA. revert acc; induction in_ as [|ex in_ IH]; intro acc.
  - simpl. ring.
  - cbn [fold_left filter].
    destruct (has_both ex) eqn:Hex.
    + rewrite IH. rewrite (test_line_counted Model_predict ft k acc ex HA Hex).
      cbn [precision map Zsum fold_right].
      fold (Zsum (map (true_positives Model_predict ft k) (filter has_both in_))).
      rewrite precision_fold_Q. unfold true_positives.
      rewrite inject_Z_plus. ring.
    + rewrite (test_line_skipped Model_predict ft k acc ex HA Hex). apply IH.
Qed.

Lemma Zsum_all_ones {A : Type} (f : A -> Z) (l : list A) :
  (forall x, In x l -> f x = 1) -> Zsum (map f l) = size l.
Proof.
  induction l as [|x l IH]; intro H; [reflexivity|].
  cbn [map Zsum fold_right]. fold (Zsum (map f l)).
  rewrite IH by (intros y Hy; apply H; now right).
  rewrite (H x) by now left.
  unfold size. cbn [length]. lia.
Qed.

(** C7, as the code has it.  In exact arithmetic, for every labeled
    stream whose number of counted lines, number of labels on them and
    product [k * nExamples] fit the [int32_t] used for them: [test] counts
    as examples exactly the lines that have both tokens and labels, its
    numerator is the number of top-k predictions found among the true
    labels of those lines, and it reports
    P@k = truePositives / (k * nExamples) and
    R@k = truePositives / totalLabels, [totalLabels] being the sum of the
    label-set sizes of the counted lines.  With k = 1, at least one
    counted line, one true label per counted line and a top-1 prediction
    equal to it on each of them, both values are 1. *)
Theorem test_precision_recall {G D : Type} {DO : DictionaryOps D}
    (Model_predict : list Z -> Z -> list (Q * Z))
    (ft : @FastText Q G D) (in_ : IStream) (k : Z) :
  addNgrams_keeps_emptiness D ->
  let examples := filter has_both in_ in
  let truePositives := Zsum (map (true_positives Model_predict ft k) examples) in
  let totalLabels := Zsum (map (fun ex => size (snd ex)) examples) in
  size examples < 2147483648 ->
  totalLabels < 2147483648 ->
  -2147483648 <= k * size examples < 2147483648 ->
  number_of_examples (test Model_predict ft in_ k) = size examples /\
  (P_at_k (test Model_predict ft in_ k) ==
   inject_Z truePositives / inject_Z (k * size examples))%Q /\
  (R_at_k (test Model_predict ft in_ k) ==
   inject_Z truePositives / inject_Z totalLabels)%Q /\
  (k = 1 ->
   examples <> [] ->
   (forall ex, In ex examples ->
      exists (y : Z) (score : Q),
        snd ex = [y] /\
        Model_predict (addNgrams (dict_ ft) (fst ex) (wordNgrams (args_ ft))) 1 =
          [(score, y)]) ->
   (P_at_k (test Model_predict ft in_ k) == 1)%Q /\
   (R_at_k (test Model_predict ft in_ k) == 1)%Q).
Proof.
  intro HA. cbv zeta. intros Bn Bl Bk.
  pose proof (test_fold_nexamples Model_predict ft k in_
                {| nexamples := 0; nlabels_seen := 0; precision := rzero |} HA) as Hn.
  pose proof (test_fold_nlabels Model_predict ft k in_
                {| nexamples := 0; nlabels_seen := 0; precision := rzero |} HA) as Hl.
  pose proof (test_fold_precision_Q Model_predict ft k in_
                {| nexamples := 0; nlabels_seen := 0; precision := rzero |} HA) as Hp.
  cbn [nexamples nlabels_seen precision] in Hn, Hl, Hp.
  rewrite Z.add_0_l in Hn, Hl.
  specialize (Hn ltac:(lia) Bn). specialize (Hl ltac:(lia) Bl).
  assert (HP : (P_at_k (test Model_predict ft in_ k) ==
                inject_Z (Zsum (map (true_positives Model_predict ft k) (filter has_both in_)))
                / inject_Z (k * size (filter has_both in_)))%Q).
  { unfold test. cbn [P_at_k rdiv of_int Q_ops]. rewrite Hn, Hp.
    rewrite wrap32_small by exact Bk.
    cbn [rzero Q_ops]. now rewrite Qplus_0_l. }
  assert (HR : (R_at_k (test Model_predict ft in_ k) ==
                inject_Z (Zsum (map (true_positives Model_predict ft k) (filter has_both in_)))
                / inject_Z (Zsum (map (fun ex => size (snd ex)) (filter has_both in_))))%Q).
  { unfold test. cbn [R_at_k rdiv of_int Q_ops]. rewrite Hl, Hp.
    cbn [rzero Q_ops]. now rewrite Qplus_0_l. }
  split; [unfold test; cbn [number_of_examples]; exact Hn|].
  split; [exact HP|]. split; [exact HR|].
  intros -> Hne Hall.
  assert (Htp : Zsum (map (true_positives Model_predict ft 1) (filter has_both in_)) =
                size (filter has_both in_)).
  { apply Zsum_all_ones. intros ex Hex.
    destruct (Hall ex Hex) as (y & score & Hy & Hpred).
    unfold true_positives. rewrite Hpred, Hy.
    unfold found. cbn [filter snd existsb]. rewrite Z.eqb_refl. reflexivity. }
  assert (Htl : Zsum (map (fun ex => size (snd ex)) (filter has_both in_)) =
                size (filter has_both in_)).
  { apply Zsum_all_ones. intros ex Hex.
    destruct (Hall ex Hex) as (y & score & Hy & _). now rewrite Hy. }
  assert (Hnz : ~ (inject_Z (size (filter has_both in_)) == 0)%Q).
  { intro E. apply Hne, size_nil_iff. unfold Qeq in E; simpl in E. lia. }
  rewrite HP, HR, Htp, Htl, Z.mul_1_l.
  split; field; exact Hnz.
Qed.

(** C7 as stated fails when the product [k * nexamples] leaves the
    32-bit range: for k = 2147483647 and two counted lines, each with one
    matching prediction, the [int32_t] product of line 172 is -2 and the
    printed P@k is 2 / -2 = -1, not 2 / 4294967294. *)
Lemma test_precision_wraps_for_largest_k :
  (P_at_k (test parity_classifier (abc_ft model_name.sup) two_examples 2147483647)
   == - (1))%Q /\
  ~ (P_at_k (test parity_classifier (abc_ft model_name.sup) two_examples 2147483647) ==
     inject_Z (Zsum (map (true_positives parity_classifier (abc_ft model_name.sup)
                            2147483647)
                       (filter has_both two_examples)))
     / inject_Z (2147483647 * size (filter has_both two_examples)))%Q.
Proof.
  split.
  - vm_compute. reflexivity.
  - vm_compute. discriminate.
Qed.

(** C10.  In IEEE binary64 arithmetic, on a stream that has no line with
    both tokens and labels, [test] still evaluates
    [precision / (k * nexamples)] and [precision / nlabels] with
    [precision = 0.0], [nexamples = 0] and [nlabels = 0]: both printed
    values are NaN, next to "Number of examples: 0". *)
Theorem test_no_example_is_nan {G D : Type} {DO : DictionaryOps D}
    (Model_predict : list Z -> Z -> list (float * Z))
    (ft : @FastText float G D) (in_ : IStream) (k : Z) :
  addNgrams_keeps_emptiness D ->
  (forall ex, In ex in_ -> has_both ex = false) ->
  number_of_examples (test Model_predict ft in_ k) = 0 /\
  P_at_k (test Model_predict ft in_ k) = PrimFloat.div 0%float (double_of_int (k * 0)) /\
  R_at_k (test Model_predict ft in_ k) = PrimFloat.div 0%float (double_of_int 0) /\
  PrimFloat.is_nan (P_at_k (test Model_predict ft in_ k)) = true /\
  PrimFloat.is_nan (R_at_k (test Model_predict ft in_ k)) = true.
Proof.
  intros HA Hnone. unfold test.
  rewrite (test_fold_skipped Model_predict ft k in_ _ HA Hnone).
  cbn [number_of_examples P_at_k R_at_k nexamples nlabels_seen precision
       rdiv rzero of_int double_ops].
  rewrite Z.mul_0_r.
  repeat split; vm_compute; reflexivity.
Qed.


(** ** The partition of the training file *)

Lemma wrap64_small (x : Z) :
  -9223372036854775808 <= x < 9223372036854775808 -> wrap64 x = x.
Proof. intro H. unfold wrap64. rewrite Z.mod_small by lia. lia. Qed.

(** Inside the 64-bit range the machine computation is the exact one. *)
Lemma partition_offset_div (i total_size T : Z) :
  0 <= i -> 0 <= total_size -> 0 < T ->
  i * total_size < 9223372036854775808 ->
  partition_offset i total_size T = partition_offset_exact i total_size T.
Proof.
  intros Hi Hs HT Hb. unfold partition_offset, partition_offset_exact.
  rewrite wrap64_small by nia.
  apply Z.quot_div_nonneg; nia.
Qed.

(** C6, as the code has it.  For a worker count [T > 0] and a file of
    [total_size > 0] bytes such that [(T - 1) * total_size] fits the
    signed 64-bit word in which line 250 computes, the offsets
    [i * total_size / T] of the workers 0, ..., T - 1 start at 0, do not
    decrease when the worker index grows, and the offset of the last
    worker is below [total_size]. *)
Theorem partition_offset_monotone (T total_size : Z) :
  0 < T -> 0 < total_size ->
  (T - 1) * total_size < 9223372036854775808 ->
  partition_offset 0 total_size T = 0 /\
  (forall i j : Z, 0 <= i -> i <= j -> j <= T - 1 ->
     partition_offset i total_size T <= partition_offset j total_size T) /\
  partition_offset (T - 1) total_size T < total_size.
Proof.
  intros HT HS Hb. split; [|split].
  - rewrite partition_offset_div by lia. unfold partition_offset_exact.
    rewrite Z.mul_0_l. apply Z.div_0_l. lia.
  - intros i j Hi Hij Hj.
    rewrite !partition_offset_div by nia. unfold partition_offset_exact.
    apply Z.div_le_mono; nia.
  - rewrite partition_offset_div by lia. unfold partition_offset_exact.
    apply Z.div_lt_upper_bound; nia.
Qed.

(** C6 as stated fails on a file of 2^62 bytes read by four workers: the
    product [2 * total_size] leaves the signed 64-bit range, the third
    worker gets a negative offset, and the offsets decrease from the
    second worker to the third. *)
Lemma partition_offset_wraps_on_huge_file :
  partition_offset 1 4611686018427387904 4 = 1152921504606846976 /\
  partition_offset 2 4611686018427387904 4 = -2305843009213693952 /\
  ~ (partition_offset 1 4611686018427387904 4 <= partition_offset 2 4611686018427387904 4).
Proof.
  split; [vm_compute; reflexivity|].
  split; [vm_compute; reflexivity|].
  vm_compute. intro H. apply H. reflexivity.
Qed.

(** ** saveModel and loadModel *)

Section PersistenceFacts.
Context {R : Type} {RO : RealOps R}.
Context {G : Type} {RG : RngOps G}.
Context {D : Type} {DO : DictionaryOps D}.
Variable cell : Type.
Variable Args_save : Args R -> list cell.
Variable Args_load : list cell -> option (Args R * list cell).
Variable Dictionary_save : D -> list cell.
Variable Dictionary_load : Args R -> list cell -> option (D * list cell).
Variable Matrix_save : Matrix R -> list cell.
Variable Matrix_load : list cell -> option (Matrix R * list cell).

(** The [Args] a dictionary was constructed with ([Dictionary(args_)]). *)
Variable Dictionary_args : D -> Args R.

Lemma getVector_ext (ft ft' : @FastText R G D) (vec : Vector R) (word : string) :
  dict_ ft' = dict_ ft -> input_ ft' = input_ ft ->
  getVector ft' vec word = getVector ft vec word.
Proof. intros Hd Hi. unfold getVector. now rewrite Hd, Hi. Qed.

(** Whatever the stream, a successful load has read [Args], then the
    dictionary, then the input matrix, then the output matrix, each from
    where the previous one stopped, and has set the target counts from
    the loaded dictionary. *)
Lemma loadModel_order (s rest : list cell) (ft' : @FastText R G D) :
  loadModel cell Args_load Dictionary_load Matrix_load s = Some (ft', rest) ->
  exists s1 s2 s3 : list cell,
    Args_load s = Some (args_ ft', s1) /\
    Dictionary_load (args_ ft') s1 = Some (dict_ ft', s2) /\
    Matrix_load s2 = Some (input_ ft', s3) /\
    Matrix_load s3 = Some (output_ ft', rest) /\
    targetCounts (model_ ft') =
      getCounts (dict_ ft') (target_entry (model (args_ ft'))).
Proof.
  unfold loadModel. intro H.
  destruct (Args_load s) as [[a s1]|] eqn:Ea; [|discriminate].
  cbn [fst snd] in H.
  destruct (Dictionary_load a s1) as [[d s2]|] eqn:Ed; [|discriminate].
  cbn [fst snd] in H.
  destruct (Matrix_load s2) as [[wi s3]|] eqn:Ei; [|discriminate].
  cbn [fst snd] in H.
  destruct (Matrix_load s3) as [[wo s4]|] eqn:Eo; [|discriminate].
  cbn [fst snd] in H. injection H as <- <-.
  exists s1, s2, s3. cbn [args_ dict_ input_ output_ model_].
  repeat split; try assumption.
  destruct (model a); reflexivity.
Qed.

(** C8.  [saveModel] writes the serializations of the configuration, the
    vocabulary, the input matrix and the output matrix, in that order and
    with nothing in between.  When each collaborator reads back exactly
    what it wrote, [loadModel] applied to a saved model succeeds, reads
    the four parts in the same order, yields the same configuration,
    vocabulary and matrices, sets the target counts of the new model from
    the label counts (supervised) or the word counts (otherwise), and
    [getVector] returns on the loaded model the vector it returns on the
    saved one, for every word. *)
Theorem saveModel_loadModel_roundtrip (ft : @FastText R G D) (rest : list cell) :
  roundtrips Args_save Args_load ->
  (forall (d : D) (rest : list cell),
     Dictionary_load (Dictionary_args d) (Dictionary_save d ++ rest) = Some (d, rest)) ->
  roundtrips Matrix_save Matrix_load ->
  Dictionary_args (dict_ ft) = args_ ft ->
  saveModel cell Args_save Dictionary_save Matrix_save ft =
    Args_save (args_ ft) ++ Dictionary_save (dict_ ft) ++
    Matrix_save (input_ ft) ++ Matrix_save (output_ ft) /\
  exists ft' : @FastText R G D,
    loadModel cell Args_load Dictionary_load Matrix_load
      (saveModel cell Args_save Dictionary_save Matrix_save ft ++ rest) = Some (ft', rest) /\
    args_ ft' = args_ ft /\ dict_ ft' = dict_ ft /\
    input_ ft' = input_ ft /\ output_ ft' = output_ ft /\
    targetCounts (model_ ft') =
      getCounts (dict_ ft)
        (match model (args_ ft) with
         | model_name.sup => entry_type.label
         | _ => entry_type.word
         end) /\
    forall (vec : Vector R) (word : string),
      getVector ft' vec word = getVector ft vec word.
Proof.
  intros HA HD HM Hargs.
  assert (Hsave : saveModel cell Args_save Dictionary_save Matrix_save ft =
                  Args_save (args_ ft) ++ Dictionary_save (dict_ ft) ++
                  Matrix_save (input_ ft) ++ Matrix_save (output_ ft)).
  { unfold saveModel. cbn zeta. rewrite app_nil_l, <- !app_assoc. reflexivity. }
  split; [exact Hsave|].
  rewrite Hsave.
  unfold loadModel.
  rewrite <- !app_assoc, HA. cbn [fst snd].
  pose proof (HD (dict_ ft)) as HD'. rewrite Hargs in HD'.
  rewrite HD'. cbn [fst snd].
  rewrite HM. cbn [fst snd]. rewrite HM. cbn [fst snd].
  eexists. split; [reflexivity|].
  cbn [args_ dict_ input_ output_ model_].
  repeat split.
  destruct (model (args_ ft)); reflexivity.
Qed.

End PersistenceFacts.

(** ** predict *)

Section PredictFacts.
Context {R : Type} {G : Type} {D : Type} {DO : DictionaryOps D}.
Variable Model_predict : list Z -> Z -> list (R * Z).
Variable rexp : R -> R.
Variable show_real : R -> string.

Lemma predict_advances (ft : @FastText R G D) (ex : list Z * list Z) (rest : IStream)
    (k : Z) (predictions : list (R * string)) :
  fst (predict Model_predict ft (ex :: rest) k predictions) = rest.
Proof.
  unfold predict. cbn [getLine]. destruct ex as [words0 labels].
  destruct (size (addNgrams (dict_ ft) words0 (wordNgrams (args_ ft))) =? 0); reflexivity.
Qed.

(** On a line without words [predict] returns before [predictions.clear()]:
    the vector keeps what the previous call left in it. *)
Lemma predict_no_words (ft : @FastText R G D) (ex : list Z * list Z) (rest : IStream)
    (k : Z) (predictions : list (R * string)) :
  addNgrams (dict_ ft) (fst ex) (wordNgrams (args_ ft)) = [] ->
  predict Model_predict ft (ex :: rest) k predictions = (rest, predictions).
Proof.
  intro H. unfold predict. cbn [getLine]. destruct ex as [words0 labels].
  cbn [fst] in H. rewrite H. reflexivity.
Qed.

(** The line printed for an example without words is "n/a" when the
    vector is empty at that moment ... *)
Lemma predict_loop_no_words_fresh (ft : @FastText R G D) (ex : list Z * list Z)
    (rest : IStream) (k : Z) (print_prob : bool) (cout : list string) :
  addNgrams (dict_ ft) (fst ex) (wordNgrams (args_ ft)) = [] ->
  predict_loop Model_predict rexp show_real ft (ex :: rest) k print_prob [] cout =
  predict_loop Model_predict rexp show_real ft rest k print_prob [] (cout ++ ["n/a"%string]).
Proof.
  intro H. cbn [predict_loop]. rewrite (predict_no_words ft ex rest k [] H). reflexivity.
Qed.

(** ... and the line of the previous predictions otherwise. *)
Lemma predict_loop_no_words_stale (ft : @FastText R G D) (ex : list Z * list Z)
    (rest : IStream) (k : Z) (print_prob : bool) (cout : list string)
    (p : R * string) (ps : list (R * string)) :
  addNgrams (dict_ ft) (fst ex) (wordNgrams (args_ ft)) = [] ->
  predict_loop Model_predict rexp show_real ft (ex :: rest) k print_prob (p :: ps) cout =
  predict_loop Model_predict rexp show_real ft rest k print_prob (p :: ps)
    (cout ++ [print_predictions rexp show_real print_prob true (p :: ps)]).
Proof.
  intro H. cbn [predict_loop]. rewrite (predict_no_words ft ex rest k (p :: ps) H). reflexivity.
Qed.

End PredictFacts.

(** C2, the code at a stream of two lines, the first with the words 0 and
    1, the second without any word, for k = 1 and a classifier that
    answers label 0: the second printed line is the label of the first
    line again, not "n/a". *)
Theorem predict_print_repeats_previous_line :
  predict_print always_first (fun x => x) no_show (abc_ft model_name.sup)
    [([0; 1], []); ([], [])] 1 false
  = ["__label__x"%string; "__label__x"%string].
Proof. vm_compute. reflexivity. Qed.

(** The same empty line alone in the stream is answered by "n/a". *)
Lemma predict_print_empty_line_alone :
  predict_print always_first (fun x => x) no_show (abc_ft model_name.sup)
    [([], [])] 1 false
  = ["n/a"%string].
Proof. vm_compute. reflexivity. Qed.

(** ** trainThread *)

Section DispatchFacts.
Context {R : Type} {RO : RealOps R}.
Context {G : Type} {RG : RngOps G}.
Context {D : Type} {DO : DictionaryOps D}.

Lemma dispatch_appends (ft : @FastText R G D) (model : Model R G) (lr : R)
    (line labels : list Z) :
  exists new, updates (dispatch ft model lr line labels) = updates model ++ new /\
              Forall (fun u => u_lr u = lr) new.
Proof.
  unfold dispatch. destruct (model_name_of ft).
  - eexists. split; [apply cbow_updates|apply cbow_expected_lr].
  - eexists. split; [apply skipgram_updates|apply skipgram_expected_lr].
  - apply supervised_appends.
Qed.

Lemma skipn_appended {A : Type} (l new : list A) :
  skipn (length l) (l ++ new) = new.
Proof.
  induction l as [|x l IH]; simpl; [reflexivity|exact IH].
Qed.

End DispatchFacts.

Section TrainFacts.
Context {G : Type} {RG : RngOps G}.
Context {D : Type} {DO : DictionaryOps D}.
Variable IFS : Type.
Variable Dictionary_getLine : D -> IFS -> G -> GetLine G IFS.
Hypothesis getLine_counts :
  forall d ifs g, 0 <= gl_ntokens (Dictionary_getLine d ifs g).

Lemma arrive_inv (ft : @FastText Q G D) (ntokens : Z) (st : TrainState Q G IFS) :
  train_inv ft ntokens st ->
  train_inv ft ntokens (arrive st) /\ t_tokenCount st <= t_tokenCount (arrive st) /\
  t_local (arrive st) = t_local st /\ t_log (arrive st) = t_log st.
Proof.
  intros (Hc & Ho & Hl & Hlog). unfold arrive.
  destruct (t_others st) as [|d rest] eqn:E.
  - repeat split; try assumption; try lia. now rewrite E.
  - inversion Ho as [|? ? Hd Hrest]; subst.
    unfold train_inv; cbn. repeat split; try assumption; lia.
Qed.

Lemma arrive_alone (st : TrainState Q G IFS) :
  t_others st = [] -> arrive st = st.
Proof. intro H. unfold arrive. now rewrite H. Qed.

Lemma progress_bounds (read tested total : Z) :
  0 <= tested -> tested <= read -> tested < total ->
  (0 <= inject_Z read / inject_Z total)%Q /\
  (read = tested -> (inject_Z read / inject_Z total < 1)%Q).
Proof.
  intros H0 Hr Ht.
  assert (Hpos : (0 < inject_Z total)%Q).
  { change 0%Q with (inject_Z 0). rewrite <- Zlt_Qlt. lia. }
  split.
  - apply Qle_shift_div_l; [exact Hpos|].
    rewrite Qmult_0_l. change 0%Q with (inject_Z 0). rewrite <- Zle_Qle. lia.
  - intros ->. apply Qlt_shift_div_r; [exact Hpos|].
    rewrite Qmult_1_l. rewrite <- Zlt_Qlt. exact Ht.
Qed.

Lemma loop_body_inv (ft : @FastText Q G D) (threadId ntokens : Z)
    (st : TrainState Q G IFS) :
  train_inv ft ntokens st ->
  t_tokenCount st < epoch (args_ ft) * ntokens ->
  train_inv ft ntokens
    (loop_body IFS Dictionary_getLine ft threadId ntokens (t_tokenCount st) st).
Proof.
  intros Hinv Htest.
  pose proof Hinv as (Hc0 & _ & _ & _).
  destruct (arrive_inv ft ntokens st Hinv) as (Hinv1 & Hmono & Hloc1 & Hlog1).
  destruct (arrive_inv ft ntokens (arrive st) Hinv1) as (Hinv2 & Hmono2 & Hloc2 & Hlog2).
  destruct Hinv1 as (Hc1 & Ho1 & Hl1 & HL1).
  destruct Hinv2 as (Hc2 & Ho2 & Hl2 & HL2).
  pose proof (getLine_counts (dict_ ft) (t_ifs (arrive st)) (rng (t_model (arrive st)))) as Hn.
  destruct (progress_bounds (t_tokenCount (arrive st)) (t_tokenCount st)
              (epoch (args_ ft) * ntokens) Hc0 Hmono Htest) as [Hp0 Hp1].
  destruct (dispatch_appends ft
              (set_rng (t_model (arrive st))
                 (gl_rng (Dictionary_getLine (dict_ ft) (t_ifs (arrive st))
                            (rng (t_model (arrive st))))))
              (rmul (lr (args_ ft))
                 (rsub rone
                    (rdiv (of_int (t_tokenCount (arrive st)))
                       (of_int (epoch (args_ ft) * ntokens)))))
              (gl_line (Dictionary_getLine (dict_ ft) (t_ifs (arrive st))
                          (rng (t_model (arrive st)))))
              (gl_labels (Dictionary_getLine (dict_ ft) (t_ifs (arrive st))
                            (rng (t_model (arrive st))))))
    as (new & Hnew & Hlr).
  assert (Hpass : forall reported,
    pass_ok ft ntokens
      (mkIteration (t_tokenCount st) (t_tokenCount (arrive st))
         (rdiv (of_int (t_tokenCount (arrive st))) (of_int (epoch (args_ ft) * ntokens)))
         (rmul (lr (args_ ft))
            (rsub rone
               (rdiv (of_int (t_tokenCount (arrive st)))
                  (of_int (epoch (args_ ft) * ntokens)))))
         new reported)).
  { intro reported. unfold pass_ok. cbn.
    repeat split; try assumption; try lia. }
  unfold loop_body. cbv zeta. rewrite Hnew. cbn [set_rng updates].
  rewrite skipn_appended.
  destruct (lrUpdateRate (args_ ft) <?
            t_local (arrive st) +
            gl_ntokens (Dictionary_getLine (dict_ ft) (t_ifs (arrive st))
                          (rng (t_model (arrive st))))).
  - unfold train_inv. cbn.
    repeat split; try assumption; try lia.
    rewrite Hlog2. apply Forall_app. split; [exact HL1|]. constructor; [apply Hpass|constructor].
  - unfold train_inv. cbn.
    repeat split; try assumption; try lia.
    apply Forall_app. split; [exact HL1|]. constructor; [apply Hpass|constructor].
Qed.

Lemma train_loop_inv (fuel : nat) (ft : @FastText Q G D) (threadId ntokens : Z)
    (st : TrainState Q G IFS) :
  train_inv ft ntokens st ->
  train_inv ft ntokens (train_loop IFS Dictionary_getLine fuel ft threadId ntokens st).
Proof.
  revert st; induction fuel as [|fuel IH]; intros st Hinv; [exact Hinv|].
  cbn [train_loop].
  destruct (arrive_inv ft ntokens st Hinv) as (Hinv1 & _).
  destruct (Z.ltb_spec (t_tokenCount (arrive st)) (epoch (args_ ft) * ntokens)) as [Hlt|Hge].
  - apply IH. now apply loop_body_inv.
  - exact Hinv1.
Qed.

(** A worker that is alone reads at line 263 the value it has just
    tested. *)
Lemma loop_body_alone (ft : @FastText Q G D) (threadId ntokens : Z)
    (st : TrainState Q G IFS) :
  t_others st = [] ->
  Forall (fun it => it_read it = it_tested it) (t_log st) ->
  let st' := loop_body IFS Dictionary_getLine ft threadId ntokens (t_tokenCount st) st in
  t_others st' = [] /\ Forall (fun it => it_read it = it_tested it) (t_log st').
Proof.
  intros Ho Hlog. cbv zeta. unfold loop_body. cbv zeta.
  rewrite !(arrive_alone st Ho).
  destruct (lrUpdateRate (args_ ft) <? _); cbn [t_others t_log];
    (split; [exact Ho|]); apply Forall_app; (split; [exact Hlog|]);
    constructor; try constructor; reflexivity.
Qed.

Lemma train_loop_alone (fuel : nat) (ft : @FastText Q G D) (threadId ntokens : Z)
    (st : TrainState Q G IFS) :
  t_others st = [] ->
  Forall (fun it => it_read it = it_tested it) (t_log st) ->
  Forall (fun it => it_read it = it_tested it)
    (t_log (train_loop IFS Dictionary_getLine fuel ft threadId ntokens st)).
Proof.
  revert st; induction fuel as [|fuel IH]; intros st Ho Hlog; [exact Hlog|].
  cbn [train_loop]. rewrite (arrive_alone st Ho).
  destruct (t_tokenCount st <? epoch (args_ ft) * ntokens); [|exact Hlog].
  destruct (loop_body_alone ft threadId ntokens st Ho Hlog) as [Ho' Hlog'].
  now apply IH.
Qed.

End TrainFacts.


(** The schedule of the learning rate in exact arithmetic.  Every pass
    of the training loop of a worker computes
    [progress = tokenCount / (epoch * ntokens)] from the counter as read
    at the start of the pass (line 263) and hands
    [lr * (1 - progress)] to every update of the pass; a pass is entered
    only when the counter read by the loop condition is below
    [epoch * ntokens]; [progress] is never negative; and it is below 1
    whenever the counter did not move between the loop condition and the
    read of line 263, which is always so for a worker that runs alone. *)
Theorem trainThread_learning_rate {G D : Type} {RG : RngOps G} {DO : DictionaryOps D}
    (IFS : Type) (ifstream_open : string -> IFS) (utils_size : IFS -> Z)
    (utils_seek : IFS -> Z -> IFS)
    (Dictionary_getLine : D -> IFS -> G -> GetLine G IFS)
    (fuel : nat) (ft : @FastText Q G D) (threadId tokenCount0 : Z) (others : list Z) :
  (forall d ifs g, 0 <= gl_ntokens (Dictionary_getLine d ifs g)) ->
  0 <= tokenCount0 ->
  Forall (fun d => 0 <= d) others ->
  forall it : Iteration Q,
    In it (t_log (trainThread IFS ifstream_open utils_size utils_seek
                    Dictionary_getLine fuel ft threadId tokenCount0 others)) ->
    it_progress it =
      (inject_Z (it_read it) / inject_Z (epoch (args_ ft) * ntokens (dict_ ft)))%Q /\
    it_lr it = (lr (args_ ft) * (1 - it_progress it))%Q /\
    Forall (fun u => u_lr u = it_lr it) (it_updates it) /\
    it_tested it < epoch (args_ ft) * ntokens (dict_ ft) /\
    (0 <= it_progress it)%Q /\
    (it_read it = it_tested it -> (it_progress it < 1)%Q) /\
    (others = [] -> it_read it = it_tested it /\ (it_progress it < 1)%Q).
Proof.
  intros Hgl H0 Hothers it Hin.
  unfold trainThread in Hin. cbv zeta in Hin.
  match type of Hin with
  | In _ (t_log (train_loop _ _ _ _ _ _ ?st)) => set (st0 := st) in *
  end.
  assert (Hinv0 : train_inv ft (ntokens (dict_ ft)) st0).
  { unfold train_inv, st0. cbn. repeat split; try assumption; try lia. constructor. }
  pose proof (train_loop_inv IFS Dictionary_getLine Hgl fuel ft threadId
                (ntokens (dict_ ft)) st0 Hinv0) as (_ & _ & _ & Hlog).
  rewrite Forall_forall in Hlog. specialize (Hlog it Hin).
  destruct Hlog as (Hlr & Hp & Ht & Hr & Hp0 & Hp1 & Hu).
  split; [exact Hp|]. split; [exact Hlr|]. split; [exact Hu|].
  split; [exact Ht|]. split; [exact Hp0|]. split; [exact Hp1|].
  intro Ho.
  assert (Hal : Forall (fun it => it_read it = it_tested it)
                  (t_log (train_loop IFS Dictionary_getLine fuel ft threadId
                            (ntokens (dict_ ft)) st0))).
  { apply train_loop_alone; unfold st0; cbn; [exact Ho|constructor]. }
  assert (E : it_read it = it_tested it).
  { rewrite Forall_forall in Hal. now apply Hal. }
  split; [exact E|apply Hp1, E].
Qed.

(** C5, the code with two workers: the comment of line 263 says that
    the progress takes its values in 0~1, and nothing enforces it.  When
    a second worker flushes its tokens between the loop condition and
    line 263 ([epoch * ntokens = 10], a counter at 9 when tested and 5
    tokens arriving before the read) the pass is entered with a progress
    of 14/10 and a negative learning rate. *)
Lemma progress_exceeds_one_with_second_worker :
  ~ (forall it : Iteration Q,
       In it (t_log (trainThread Z (fun _ => 0) (fun _ => 60) (fun _ off => off)
                       loop_getLine 1 (abc_ft model_name.sup) 1 9 [0; 5])) ->
       (0 <= it_progress it)%Q /\ (it_progress it <= 1)%Q).
Proof.
  intro H.
  set (log := t_log (trainThread Z (fun _ => 0) (fun _ => 60) (fun _ off => off)
                       loop_getLine 1 (abc_ft model_name.sup) 1 9 [0; 5])) in *.
  assert (E : map (fun it => (it_tested it, it_read it, it_progress it)) log =
              [(9, 14, ((14 # 1) / (10 # 1))%Q)]).
  { vm_compute. reflexivity. }
  destruct log as [|it [|it' log']]; try discriminate E.
  injection E as Et Er Ep.
  destruct (H it (or_introl eq_refl)) as [_ Hle].
  rewrite Ep in Hle. vm_compute in Hle. apply Hle. reflexivity.
Qed.


(** * The statements at concrete inputs *)

Lemma lcg_uniform_in_range : uniform_in_range Z.
Proof.
  intros a b g Hab. cbn [uniform_int lcg_rng fst].
  pose proof (Z.mod_pos_bound (lcg_next g) (b - a + 1) ltac:(lia)). lia.
Qed.

Lemma small_dictionary_keeps_emptiness : addNgrams_keeps_emptiness SmallDict.
Proof.
  intros d line n. cbn [addNgrams small_dictionary]. split.
  - intro H. apply app_eq_nil in H. tauto.
  - intros ->. simpl. now destruct (1 <? n).
Qed.

Lemma getVector_mean_witness :
  (nth 0 (getVector (abc_ft model_name.sup) [5; 5]%Q "b"%string) 0 ==
   Qsum (map (fun g => Matrix_at (input_ (abc_ft model_name.sup)) g (Z.of_nat 0))
           (getNgrams (dict_ (abc_ft model_name.sup)) "b"%string))
   / inject_Z (size (getNgrams (dict_ (abc_ft model_name.sup)) "b"%string)))%Q.
Proof.
  apply (proj2 (proj2 (getVector_mean (abc_ft model_name.sup) [5; 5]%Q "b"%string))).
  - discriminate.
  - simpl. lia.
Defined.

Lemma supervised_one_update_witness :
  uniform_in_range Z /\
  issued abc_model (supervised abc_model (1 # 10)%Q [0; 1] [0; 1]) = 1%nat.
Proof.
  split; [exact lcg_uniform_in_range|].
  apply (proj2 (supervised_one_update abc_model (1 # 10)%Q [0; 1] [0; 1]
                  lcg_uniform_in_range)); discriminate.
Defined.



(** The boundary case of C9: a line of one token. *)
Lemma single_token_line_cbow_one_skipgram_none :
  issued abc_model (cbow (abc_ft model_name.cbow) abc_model (1 # 10)%Q [1]) = 1%nat /\
  issued abc_model (skipgram (abc_ft model_name.sg) abc_model (1 # 10)%Q [1]) = 0%nat.
Proof. split; vm_compute; reflexivity. Qed.

Lemma test_precision_recall_witness :
  addNgrams_keeps_emptiness SmallDict /\
  size (filter has_both abc_stream) < 2147483648 /\
  Zsum (map (fun ex => size (snd ex)) (filter has_both abc_stream)) < 2147483648 /\
  -2147483648 <= 1 * size (filter has_both abc_stream) < 2147483648 /\
  (P_at_k (test parity_classifier (abc_ft model_name.sup) abc_stream 1) == 1)%Q /\
  (R_at_k (test parity_classifier (abc_ft model_name.sup) abc_stream 1) == 1)%Q.
Proof.
  assert (Bn : size (filter has_both abc_stream) < 2147483648)
    by (vm_compute; reflexivity).
  assert (Bl : Zsum (map (fun ex => size (snd ex)) (filter has_both abc_stream))
               < 2147483648) by (vm_compute; reflexivity).
  assert (Bk : -2147483648 <= 1 * size (filter has_both abc_stream) < 2147483648)
    by (vm_compute; split; [discriminate|reflexivity]).
  split; [exact small_dictionary_keeps_emptiness|].
  split; [exact Bn|]. split; [exact Bl|]. split; [exact Bk|].
  apply (proj2 (proj2 (proj2
           (test_precision_recall parity_classifier (abc_ft model_name.sup)
              abc_stream 1 small_dictionary_keeps_emptiness Bn Bl Bk)))).
  - reflexivity.
  - discriminate.
  - intros ex [<-|[<-|[]]].
    + exists 0, (-1 # 2)%Q. split; reflexivity.
    + exists 1, (-1 # 2)%Q. split; reflexivity.
Defined.

Lemma test_no_example_is_nan_witness :
  addNgrams_keeps_emptiness SmallDict /\
  (forall ex, In ex void_stream -> has_both ex = false) /\
  PrimFloat.is_nan
    (P_at_k (test no_prediction abc_ft_double void_stream 1)) = true /\
  PrimFloat.is_nan
    (R_at_k (test no_prediction abc_ft_double void_stream 1)) = true.
Proof.
  assert (H : forall ex, In ex void_stream -> has_both ex = false).
  { intros ex [<-|[<-|[]]]; reflexivity. }
  split; [exact small_dictionary_keeps_emptiness|].
  split; [exact H|].
  apply (test_no_example_is_nan no_prediction abc_ft_double void_stream 1
           small_dictionary_keeps_emptiness H).
Defined.

Lemma partition_offset_monotone_witness :
  0 < 4 /\ 0 < 10 /\ (4 - 1) * 10 < 9223372036854775808 /\
  partition_offset 0 10 4 = 0 /\
  (forall i j : Z, 0 <= i -> i <= j -> j <= 4 - 1 ->
     partition_offset i 10 4 <= partition_offset j 10 4) /\
  partition_offset (4 - 1) 10 4 < 10.
Proof.
  split; [lia|]. split; [lia|]. split; [lia|].
  apply (partition_offset_monotone 4 10); lia.
Defined.

Lemma obj_Args_roundtrips : roundtrips obj_Args_save obj_Args_load.
Proof. intros a rest. reflexivity. Qed.

Lemma obj_Matrix_roundtrips : roundtrips obj_Matrix_save obj_Matrix_load.
Proof. intros a rest. reflexivity. Qed.

Lemma saveModel_loadModel_roundtrip_witness :
  roundtrips obj_Args_save obj_Args_load /\
  roundtrips obj_Matrix_save obj_Matrix_load /\
  exists ft' : @FastText Q Z SmallDict,
    loadModel ObjCell obj_Args_load obj_Dictionary_load obj_Matrix_load
      (saveModel ObjCell obj_Args_save obj_Dictionary_save obj_Matrix_save
         (abc_ft model_name.sg) ++ []) = Some (ft', []) /\
    forall (vec : Vector Q) (word : string),
      getVector ft' vec word = getVector (abc_ft model_name.sg) vec word.
Proof.
  split; [exact obj_Args_roundtrips|].
  split; [exact obj_Matrix_roundtrips|].
  destruct (saveModel_loadModel_roundtrip ObjCell
              obj_Args_save obj_Args_load obj_Dictionary_save obj_Dictionary_load
              obj_Matrix_save obj_Matrix_load
              (fun _ => abc_args model_name.sg)
              (abc_ft model_name.sg) []
              obj_Args_roundtrips
              (fun d rest => eq_refl)
              obj_Matrix_roundtrips
              eq_refl)
    as (_ & ft' & Hload & _ & _ & _ & _ & _ & Hvec).
  exists ft'. split; [exact Hload|exact Hvec].
Defined.

Lemma trainThread_learning_rate_witness :
  let log := t_log (trainThread Z (fun _ => 0) (fun _ => 60) (fun _ off => off)
                      loop_getLine 3 (abc_ft model_name.sup) 0 0 []) in
  let it := nth 1 log (mkIteration 0 0 0%Q 0%Q [] false) in
  (forall d ifs g, 0 <= gl_ntokens (loop_getLine d ifs g)) /\
  0 <= 0 /\
  Forall (fun d => 0 <= d) [] /\
  In it log /\
  it_lr it = (lr (args_ (abc_ft model_name.sup)) * (1 - it_progress it))%Q /\
  it_tested it < epoch (args_ (abc_ft model_name.sup)) *
                 ntokens (dict_ (abc_ft model_name.sup)) /\
  (0 <= it_progress it)%Q /\
  (it_progress it < 1)%Q.
Proof.
  cbv zeta.
  set (log := t_log (trainThread Z (fun _ => 0) (fun _ => 60) (fun _ off => off)
                       loop_getLine 3 (abc_ft model_name.sup) 0 0 [])).
  set (it := nth 1 log (mkIteration 0 0 0%Q 0%Q [] false)).
  assert (Hgl : forall d ifs g, 0 <= gl_ntokens (loop_getLine d ifs g)).
  { intros d ifs g. simpl. lia. }
  assert (Hin : In it log).
  { apply nth_In. vm_compute. lia. }
  destruct (trainThread_learning_rate Z (fun _ => 0) (fun _ => 60) (fun _ off => off)
              loop_getLine 3 (abc_ft model_name.sup) 0 0 []
              Hgl (Z.le_refl 0) (Forall_nil _) it Hin)
    as (_ & Hlr & _ & Ht & Hp0 & _ & Hal).
  split; [exact Hgl|]. split; [lia|]. split; [constructor|].
  split; [exact Hin|]. split; [exact Hlr|]. split; [exact Ht|].
  split; [exact Hp0|]. exact (proj2 (Hal eq_refl)).
Defined.


(** Every sequence of radii in [1, ws] is the sequence of draws of some
    generator state: the statements about "the radius draws" range over
    all of them. *)
Lemma tape_uniform_in_range : uniform_in_range (list Z).
Proof.
  intros a b g Hab. destruct g as [|x t]; cbn [uniform_int tape_rng fst]; [lia|].
  pose proof (Z.mod_pos_bound x (b - a + 1) ltac:(lia)). lia.
Qed.

Lemma tape_replays (ws : Z) (bs : list Z) :
  Forall (fun b => 1 <= b <= ws) bs ->
  fst (draws 1 ws (length bs) (map (fun b => b - 1) bs)) = bs.
Proof.
  induction 1 as [|b bs Hb Hbs IH]; [reflexivity|].
  cbn [length map draws uniform_int tape_rng].
  destruct (draws 1 ws (length bs) (map (fun b => b - 1) bs)) as [xs g] eqn:E.
  cbn [fst] in *. rewrite IH. f_equal.
  rewrite Z.mod_small by lia. lia.
Qed.

(** * Further properties of the engine *)

(** ** The vector buffer of getVector, saveVectors and wordVectors *)

Section BufferFacts.
Context {R : Type} {RO : RealOps R}.
Context {G : Type} {D : Type} {DO : DictionaryOps D}.

Lemma getVector_same_length (ft : @FastText R G D) (vec vec' : Vector R) (word : string) :
  length vec = length vec' -> getVector ft vec word = getVector ft vec' word.
Proof.
  intro H. unfold getVector. now rewrite !Vector_zero_repeat, H.
Qed.

(** A loop that hands the same buffer to [getVector] for the words
    [h x], [x] in [l], and records each result. *)
Lemma getVector_loop {A : Type} (ft : @FastText R G D) (h : A -> string) (l : list A)
    (vec0 : Vector R) (out0 : list (string * Vector R)) :
  snd (fold_left
         (fun (st : Vector R * list (string * Vector R)) x =>
            (getVector ft (fst st) (h x),
             snd st ++ [(h x, getVector ft (fst st) (h x))]))
         l (vec0, out0)) =
  out0 ++ map (fun x => (h x, getVector ft vec0 (h x))) l.
Proof.
  revert vec0 out0; induction l as [|x l IH]; intros vec0 out0; cbn [fold_left map fst snd].
  - now rewrite app_nil_r.
  - rewrite IH. rewrite <- app_assoc. cbn [app]. do 2 f_equal.
    apply map_ext. intro y. f_equal.
    apply getVector_same_length, getVector_length.
Qed.

(** X1.  The vector returned by [getVector] depends on the buffer it is
    given only through its dimension: two buffers of the same length give
    the same result, and a call made on the result of an earlier call
    (for any other word) returns what a call on the original buffer
    returns. *)
Theorem getVector_ignores_buffer_content
    (ft : @FastText R G D) (vec vec' : Vector R) (word other : string) :
  length vec = length vec' ->
  getVector ft vec word = getVector ft vec' word /\
  getVector ft (getVector ft vec other) word = getVector ft vec' word.
Proof.
  intro H. split.
  - now apply getVector_same_length.
  - apply getVector_same_length. now rewrite getVector_length.
Qed.

(** X2.  [wordVectors] prints one line per word read, in reading order,
    and the vector on the line of a word is the one [getVector] computes
    for that word alone: reusing one buffer for all words carries nothing
    from a word to the next. *)
Theorem wordVectors_one_line_per_word
    (ft : @FastText R G D) (vec0 : Vector R) (cin : list string) :
  wordVectors ft vec0 cin = map (fun word => (word, getVector ft vec0 word)) cin /\
  length (wordVectors ft vec0 cin) = length cin.
Proof.
  assert (E : wordVectors ft vec0 cin =
              map (fun word => (word, getVector ft vec0 word)) cin).
  { unfold wordVectors. exact (getVector_loop ft (fun w => w) cin vec0 []). }
  split; [exact E|]. now rewrite E, length_map.
Qed.

(** X3.  [saveVectors] writes the header [nwords dim] and then, for the
    word ids 0, 1, ..., nwords - 1 in this order, the word of that id
    with its [getVector] vector; the number of lines after the header is
    the count announced in the header. *)
Theorem saveVectors_lists_every_word (getWord : D -> Z -> string)
    (ft : @FastText R G D) (vec0 : Vector R) :
  0 <= nwords (dict_ ft) ->
  fst (saveVectors getWord ft vec0) = (nwords (dict_ ft), dim (args_ ft)) /\
  snd (saveVectors getWord ft vec0) =
    map (fun i => (getWord (dict_ ft) i, getVector ft vec0 (getWord (dict_ ft) i)))
      (zrange 0 (Z.to_nat (nwords (dict_ ft)))) /\
  size (snd (saveVectors getWord ft vec0)) = nwords (dict_ ft) /\
  forall i : Z, 0 <= i < nwords (dict_ ft) ->
    nth_error (snd (saveVectors getWord ft vec0)) (Z.to_nat i) =
    Some (getWord (dict_ ft) i, getVector ft vec0 (getWord (dict_ ft) i)).
Proof.
  intro Hn.
  assert (E : snd (saveVectors getWord ft vec0) =
              map (fun i => (getWord (dict_ ft) i,
                             getVector ft vec0 (getWord (dict_ ft) i)))
                (zrange 0 (Z.to_nat (nwords (dict_ ft))))).
  { unfold saveVectors. cbn [snd].
    exact (getVector_loop ft (getWord (dict_ ft))
             (zrange 0 (Z.to_nat (nwords (dict_ ft)))) vec0 []). }
  split; [reflexivity|]. split; [exact E|]. split.
  - rewrite E. unfold size. rewrite length_map, zrange_length. lia.
  - intros i Hi. rewrite E, nth_error_map.
    rewrite (nth_error_nth' _ 0) by (rewrite zrange_length; lia).
    rewrite zrange_nth by lia. cbn [option_map].
    now replace (0 + Z.of_nat (Z.to_nat i)) with i by lia.
Qed.

End BufferFacts.

(** ** textVectors *)

Section TextVectorsFacts.
Context {R : Type} {RO : RealOps R}.
Context {G : Type} {D : Type} {DO : DictionaryOps D}.

Lemma textVectors_line_length (ft : @FastText R G D) (vec : Vector R)
    (ex : list Z * list Z) :
  length (textVectors_line ft vec ex) = length vec.
Proof.
  unfold textVectors_line.
  destruct (negb (size (addNgrams (dict_ ft) (fst ex) (wordNgrams (args_ ft))) =? 0));
    unfold Vector_mul, Vector_zero;
    rewrite ?length_map, addRows_length, length_map; reflexivity.
Qed.

Lemma textVectors_line_same_length (ft : @FastText R G D) (vec vec' : Vector R)
    (ex : list Z * list Z) :
  length vec = length vec' -> textVectors_line ft vec ex = textVectors_line ft vec' ex.
Proof.
  intro H. unfold textVectors_line. now rewrite !Vector_zero_repeat, H.
Qed.

Lemma textVectors_line_empty (ft : @FastText R G D) (vec : Vector R)
    (ex : list Z * list Z) :
  addNgrams (dict_ ft) (fst ex) (wordNgrams (args_ ft)) = [] ->
  textVectors_line ft vec ex = repeat rzero (length vec).
Proof.
  intro H. unfold textVectors_line. rewrite H. cbn. apply Vector_zero_repeat.
Qed.

Lemma textVectors_line_nth (ft : @FastText R G D) (vec : Vector R)
    (ex : list Z * list Z) (j : nat) :
  addNgrams (dict_ ft) (fst ex) (wordNgrams (args_ ft)) <> [] ->
  (j < length vec)%nat ->
  nth j (textVectors_line ft vec ex) rzero =
  rmul (fold_left (fun acc g => radd acc (Matrix_at (input_ ft) g (Z.of_nat j)))
          (addNgrams (dict_ ft) (fst ex) (wordNgrams (args_ ft))) rzero)
       (rdiv rone (of_int (size (addNgrams (dict_ ft) (fst ex) (wordNgrams (args_ ft)))))).
Proof.
  intros Hne Hj. unfold textVectors_line.
  set (line := addNgrams (dict_ ft) (fst ex) (wordNgrams (args_ ft))) in *.
  destruct (Z.eqb_spec (size line) 0) as [E|_]; [now apply size_nil_iff in E|].
  cbn [negb]. unfold Vector_mul.
  rewrite (nth_indep _ rzero (rmul rzero (rdiv rone (of_int (size line)))))
    by (rewrite length_map, addRows_length; unfold Vector_zero; now rewrite length_map).
  rewrite (map_nth (fun x => rmul x (rdiv rone (of_int (size line))))).
  f_equal.
  rewrite addRows_nth by (unfold Vector_zero; now rewrite length_map).
  f_equal. rewrite Vector_zero_repeat. apply nth_repeat.
Qed.

Lemma textVectors_loop (ft : @FastText R G D) (cin : IStream)
    (vec0 : Vector R) (out0 : list (Vector R)) :
  snd (fold_left
         (fun (st : Vector R * list (Vector R)) ex =>
            let vec := textVectors_line ft (fst st) ex in
            (vec, snd st ++ [vec]))
         cin (vec0, out0)) =
  out0 ++ map (textVectors_line ft vec0) cin.
Proof.
  revert vec0 out0; induction cin as [|ex cin IH]; intros vec0 out0;
    cbn [fold_left map fst snd].
  - now rewrite app_nil_r.
  - cbv zeta. cbv zeta in IH. rewrite IH. rewrite <- app_assoc. cbn [app]. do 2 f_equal.
    apply map_ext. intro y.
    apply textVectors_line_same_length, textVectors_line_length.
Qed.

End TextVectorsFacts.

(** X4.  [textVectors] prints one vector per line read.  In exact
    arithmetic the vector of a line is the elementwise mean of the rows
    of the input matrix selected by the ids of the line after
    [addNgrams], and the zero vector when that list of ids is empty;
    nothing is carried over from the previous lines. *)
Theorem textVectors_mean {G D : Type} {DO : DictionaryOps D}
    (ft : @FastText Q G D) (vec0 : Vector Q) (cin : IStream) :
  length (textVectors ft vec0 cin) = length cin /\
  forall (i : nat) (ex : list Z * list Z),
    nth_error cin i = Some ex ->
    exists v : Vector Q,
      nth_error (textVectors ft vec0 cin) i = Some v /\
      length v = length vec0 /\
      (addNgrams (dict_ ft) (fst ex) (wordNgrams (args_ ft)) = [] ->
       v = repeat 0%Q (length vec0)) /\
      (addNgrams (dict_ ft) (fst ex) (wordNgrams (args_ ft)) <> [] ->
       forall j : nat, (j < length vec0)%nat ->
         (nth j v 0 ==
          Qsum (map (fun g => Matrix_at (input_ ft) g (Z.of_nat j))
                  (addNgrams (dict_ ft) (fst ex) (wordNgrams (args_ ft))))
          / inject_Z (size (addNgrams (dict_ ft) (fst ex) (wordNgrams (args_ ft)))))%Q).
Proof.
  assert (E : textVectors ft vec0 cin = map (textVectors_line ft vec0) cin).
  { unfold textVectors. exact (textVectors_loop ft cin vec0 []). }
  split; [now rewrite E, length_map|].
  intros i ex Hex. exists (textVectors_line ft vec0 ex).
  split; [rewrite E, nth_error_map, Hex; reflexivity|].
  split; [apply textVectors_line_length|].
  split; [exact (textVectors_line_empty ft vec0 ex)|].
  intros Hne j Hj.
  change 0%Q with (@rzero Q Q_ops).
  rewrite (textVectors_line_nth ft vec0 ex j Hne Hj).
  rewrite fold_left_Qplus. cbn [rmul rdiv rone rzero of_int Q_ops].
  assert (Hn : ~ (inject_Z (size (addNgrams (dict_ ft) (fst ex)
                                    (wordNgrams (args_ ft)))) == 0)%Q).
  { intro E0. apply Hne, size_nil_iff. unfold Qeq in E0; simpl in E0. lia. }
  field. exact Hn.
Qed.

(** ** predict, continued *)

Section PredictMoreFacts.
Context {R : Type} {G : Type} {D : Type} {DO : DictionaryOps D}.
Variable Model_predict : list Z -> Z -> list (R * Z).
Variable rexp : R -> R.
Variable show_real : R -> string.

Lemma push_back_loop {A B : Type} (f : A -> B) (l : list A) (acc : list B) :
  fold_left (fun ps it => ps ++ [f it]) l acc = acc ++ map f l.
Proof.
  revert acc; induction l as [|x l IH]; intro acc; cbn [fold_left map].
  - now rewrite app_nil_r.
  - rewrite IH, <- app_assoc. reflexivity.
Qed.

(** X5.  On a line that has words, [predict] advances the stream by one
    line and replaces whatever [predictions] held by the predictions of
    the model for that line, in the order and with the scores the model
    gave, each label id turned into its label string. *)
Theorem predict_replaces_predictions (ft : @FastText R G D) (ex : list Z * list Z)
    (rest : IStream) (k : Z) (predictions : list (R * string)) :
  addNgrams (dict_ ft) (fst ex) (wordNgrams (args_ ft)) <> [] ->
  predict Model_predict ft (ex :: rest) k predictions =
  (rest,
   map (fun it => (fst it, getLabel (dict_ ft) (snd it)))
     (Model_predict (addNgrams (dict_ ft) (fst ex) (wordNgrams (args_ ft))) k)).
Proof.
  intro Hne. unfold predict. cbn [getLine]. destruct ex as [words0 labels].
  cbn [fst] in *.
  destruct (Z.eqb_spec (size (addNgrams (dict_ ft) words0 (wordNgrams (args_ ft)))) 0)
    as [E|_]; [now apply size_nil_iff in E|].
  cbv zeta. now rewrite push_back_loop.
Qed.

Lemma predict_loop_length (ft : @FastText R G D) (in_ : IStream) (k : Z)
    (print_prob : bool) (predictions : list (R * string)) (cout : list string) :
  length (predict_loop Model_predict rexp show_real ft in_ k print_prob predictions cout) =
  (length cout + length in_)%nat.
Proof.
  revert predictions cout; induction in_ as [|ex in_ IH]; intros predictions cout;
    cbn [predict_loop]; [cbn [length]; lia|].
  destruct (snd (predict Model_predict ft (ex :: in_) k predictions));
    rewrite IH, length_app; cbn [length]; lia.
Qed.

(** X6.  The streaming [predict] prints exactly one line per example of
    the input stream. *)
Theorem predict_print_one_line_per_example (ft : @FastText R G D) (in_ : IStream)
    (k : Z) (print_prob : bool) :
  length (predict_print Model_predict rexp show_real ft in_ k print_prob) = length in_.
Proof.
  unfold predict_print. now rewrite predict_loop_length.
Qed.

Lemma predict_loop_repeats (ft : @FastText R G D) (in_ : IStream)
    (ex : list Z * list Z) (k : Z) (print_prob : bool)
    (predictions : list (R * string)) (cout : list string) :
  addNgrams (dict_ ft) (fst ex) (wordNgrams (args_ ft)) = [] ->
  last cout "n/a"%string =
    match predictions with
    | [] => "n/a"%string
    | _ :: _ => print_predictions rexp show_real print_prob true predictions
    end ->
  predict_loop Model_predict rexp show_real ft (in_ ++ [ex]) k print_prob predictions cout =
  predict_loop Model_predict rexp show_real ft in_ k print_prob predictions cout ++
  [last (predict_loop Model_predict rexp show_real ft in_ k print_prob predictions cout)
     "n/a"%string].
Proof.
  intro Hex. revert predictions cout; induction in_ as [|e in_ IH];
    intros predictions cout Hinv.
  - cbn [app predict_loop]. rewrite (predict_no_words Model_predict ft ex [] k predictions Hex).
    cbn [snd]. destruct predictions as [|p ps]; cbn [predict_loop]; now rewrite Hinv.
  - cbn [app predict_loop].
    replace (snd (predict Model_predict ft (e :: in_ ++ [ex]) k predictions))
      with (snd (predict Model_predict ft (e :: in_) k predictions)).
    + destruct (snd (predict Model_predict ft (e :: in_) k predictions)) as [|p ps];
        apply IH; now rewrite last_last.
    + unfold predict. cbn [getLine]. destruct e as [w l].
      destruct (size (addNgrams (dict_ ft) w (wordNgrams (args_ ft))) =? 0); reflexivity.
Qed.

(** X7.  For a line without words the streaming [predict] prints again
    the line it printed for the previous example, and "n/a" when there is
    no previous example; so "n/a" appears for such a line only if the
    previous line was "n/a" too or the line is the first of the stream. *)
Theorem predict_print_wordless_line_repeats (ft : @FastText R G D) (in_ : IStream)
    (ex : list Z * list Z) (k : Z) (print_prob : bool) :
  addNgrams (dict_ ft) (fst ex) (wordNgrams (args_ ft)) = [] ->
  predict_print Model_predict rexp show_real ft (in_ ++ [ex]) k print_prob =
  predict_print Model_predict rexp show_real ft in_ k print_prob ++
  [last (predict_print Model_predict rexp show_real ft in_ k print_prob) "n/a"%string].
Proof.
  intro Hex. unfold predict_print. now apply predict_loop_repeats.
Qed.

End PredictMoreFacts.

(** ** test, continued *)

Section TestMoreFacts.
Context {R : Type} {RO : RealOps R}.
Context {G : Type} {D : Type} {DO : DictionaryOps D}.
Variable Model_predict : list Z -> Z -> list (R * Z).

Lemma test_fold_filter (ft : @FastText R G D) (k : Z) (in_ : IStream) (acc : TestAcc) :
  addNgrams_keeps_emptiness D ->
  fold_left (test_line Model_predict ft k) in_ acc =
  fold_left (test_line Model_predict ft k) (filter has_both in_) acc.
Proof.
  intro HA. revert acc; induction in_ as [|ex in_ IH]; intro acc; [reflexivity|].
  cbn [fold_left filter]. destruct (has_both ex) eqn:Hex.
  - cbn [fold_left]. apply IH.
  - rewrite (test_line_skipped Model_predict ft k acc ex HA Hex). apply IH.
Qed.

(** X8.  In any arithmetic, the three values [test] prints are those it
    prints for the stream from which every line lacking tokens or labels
    has been removed: such lines change neither the counts nor the
    accumulated precision, wherever they stand. *)
Theorem test_ignores_incomplete_lines (ft : @FastText R G D) (in_ : IStream) (k : Z) :
  addNgrams_keeps_emptiness D ->
  test Model_predict ft in_ k = test Model_predict ft (filter has_both in_) k.
Proof.
  intro HA. unfold test. now rewrite (test_fold_filter ft k in_ _ HA).
Qed.

End TestMoreFacts.

Lemma true_positives_bounds {G D : Type} {DO : DictionaryOps D}
    (Model_predict : list Z -> Z -> list (Q * Z))
    (ft : @FastText Q G D) (k : Z) (l : list (list Z * list Z)) :
  (forall words, size (Model_predict words k) <= k) ->
  0 <= Zsum (map (true_positives Model_predict ft k) l) <= k * size l.
Proof.
  intro Hk. induction l as [|ex l IH].
  - unfold size; simpl. lia.
  - cbn [map Zsum fold_right]. fold (Zsum (map (true_positives Model_predict ft k) l)).
    assert (Hex : 0 <= true_positives Model_predict ft k ex <= k).
    { unfold true_positives.
      pose proof (Hk (addNgrams (dict_ ft) (fst ex) (wordNgrams (args_ ft)))) as Hle.
      pose proof (filter_length_le (fun it => found (snd ex) (snd it))
                    (Model_predict (addNgrams (dict_ ft) (fst ex)
                                      (wordNgrams (args_ ft))) k)) as Hf.
      unfold size in *. lia. }
    unfold size in *. cbn [length]. rewrite Nat2Z.inj_succ. nia.
Qed.

(** X9.  In exact arithmetic, when the model returns at most [k]
    predictions per line, [k] is positive and [k] times the number of
    lines fits the [int32_t] product of line 172, the number of examples
    reported by [test] lies between 0 and the number of lines, and if at
    least one line is counted the reported P@k lies in [0, 1]. *)
Theorem test_precision_in_unit_interval {G D : Type} {DO : DictionaryOps D}
    (Model_predict : list Z -> Z -> list (Q * Z))
    (ft : @FastText Q G D) (in_ : IStream) (k : Z) :
  addNgrams_keeps_emptiness D ->
  0 < k ->
  k * size in_ < 2147483648 ->
  (forall words, size (Model_predict words k) <= k) ->
  0 <= number_of_examples (test Model_predict ft in_ k) <= size in_ /\
  (filter has_both in_ <> [] ->
   (0 <= P_at_k (test Model_predict ft in_ k))%Q /\
   (P_at_k (test Model_predict ft in_ k) <= 1)%Q).
Proof.
  intros HA Hk Hfit Hmodel.
  pose proof (filter_length_le has_both in_) as Hfl.
  assert (Hsz : 0 <= size (filter has_both in_) <= size in_) by (unfold size; lia).
  pose proof (test_fold_nexamples Model_predict ft k in_
                {| nexamples := 0; nlabels_seen := 0; precision := rzero |} HA) as Hn.
  pose proof (test_fold_precision_Q Model_predict ft k in_
                {| nexamples := 0; nlabels_seen := 0; precision := rzero |} HA) as Hp.
  cbn [nexamples precision] in Hn, Hp. rewrite Z.add_0_l in Hn.
  specialize (Hn ltac:(lia) ltac:(nia)).
  pose proof (true_positives_bounds Model_predict ft k (filter has_both in_) Hmodel)
    as [Htp0 Htp1].
  split.
  - unfold test. cbn [number_of_examples]. rewrite Hn. lia.
  - intro Hne.
    assert (Hpos : 0 < size (filter has_both in_)).
    { destruct (filter has_both in_); [congruence|]. unfold size. cbn [length]. lia. }
    assert (HP : (P_at_k (test Model_predict ft in_ k) ==
                  inject_Z (Zsum (map (true_positives Model_predict ft k)
                                    (filter has_both in_)))
                  / inject_Z (k * size (filter has_both in_)))%Q).
    { unfold test. cbn [P_at_k rdiv of_int Q_ops]. rewrite Hn, Hp.
      rewrite wrap32_small by nia.
      cbn [rzero Q_ops]. now rewrite Qplus_0_l. }
    assert (Hden : (0 < inject_Z (k * size (filter has_both in_)))%Q).
    { change 0%Q with (inject_Z 0). rewrite <- Zlt_Qlt. nia. }
    rewrite HP. split.
    + apply Qle_shift_div_l; [exact Hden|].
      rewrite Qmult_0_l. change 0%Q with (inject_Z 0). now rewrite <- Zle_Qle.
    + apply Qle_shift_div_r; [exact Hden|].
      rewrite Qmult_1_l. now rewrite <- Zle_Qle.
Qed.

(** ** The objectives, continued *)



Section ObjectiveMoreFacts.
Context {R : Type} {RO : RealOps R}.
Context {G : Type} {RG : RngOps G}.
Context {D : Type} {DO : DictionaryOps D}.



End ObjectiveMoreFacts.

(** ** trainThread, continued: the loop ends *)

Section TrainEndFacts.
Context {R : Type} {RO : RealOps R}.
Context {G : Type} {RG : RngOps G}.
Context {D : Type} {DO : DictionaryOps D}.
Variable IFS : Type.
Variable Dictionary_getLine : D -> IFS -> G -> GetLine G IFS.
Hypothesis getLine_reads :
  forall d ifs g, 1 <= gl_ntokens (Dictionary_getLine d ifs g).




End TrainEndFacts.


(** ** printInfo *)

(** X13.  The "eta" printed by [printInfo] splits the estimated number of
    seconds into hours and minutes: when the estimate is not negative,
    the minutes are between 0 and 59, the hours are not negative, and
    hours and minutes together account for the estimate up to less than
    one minute. *)
Theorem printInfo_eta_hours_minutes {R : Type} {RO : RealOps R}
    {G D : Type} {DO : DictionaryOps D} (to_int : R -> Z)
    (ft : @FastText R G D) (t : R) (tokenCount : Z) (progress loss : R) :
  0 <= to_int (rdiv (rmul (rdiv t progress) (rsub rone progress))
                 (of_int (thread (args_ ft)))) ->
  0 <= info_etah (printInfo to_int ft t tokenCount progress loss) /\
  0 <= info_etam (printInfo to_int ft t tokenCount progress loss) < 60 /\
  info_etah (printInfo to_int ft t tokenCount progress loss) * 3600 +
  info_etam (printInfo to_int ft t tokenCount progress loss) * 60
    <= to_int (rdiv (rmul (rdiv t progress) (rsub rone progress))
                 (of_int (thread (args_ ft))))
    < info_etah (printInfo to_int ft t tokenCount progress loss) * 3600 +
      info_etam (printInfo to_int ft t tokenCount progress loss) * 60 + 60.
Proof.
  intro Heta. unfold printInfo. cbn [info_etah info_etam].
  set (eta := to_int (rdiv (rmul (rdiv t progress) (rsub rone progress))
                        (of_int (thread (args_ ft))))) in *.
  rewrite (Z.quot_div_nonneg eta 3600) by lia.
  assert (H1 : 0 <= eta - eta / 3600 * 3600)
    by (pose proof (Z.mul_div_le eta 3600 ltac:(lia)); lia).
  rewrite (Z.quot_div_nonneg (eta - eta / 3600 * 3600) 60) by lia.
  pose proof (Z.div_mod eta 3600 ltac:(lia)) as E1.
  pose proof (Z.mod_pos_bound eta 3600 ltac:(lia)) as B1.
  pose proof (Z.div_mod (eta - eta / 3600 * 3600) 60 ltac:(lia)) as E2.
  pose proof (Z.mod_pos_bound (eta - eta / 3600 * 3600) 60 ltac:(lia)) as B2.
  pose proof (Z.div_pos eta 3600 Heta ltac:(lia)) as P1.
  pose proof (Z.div_pos (eta - eta / 3600 * 3600) 60 H1 ltac:(lia)) as P2.
  pose proof (Z.div_lt_upper_bound (eta - eta / 3600 * 3600) 60 60 ltac:(lia) ltac:(lia)).
  lia.
Qed.

(** ** The partition of the training file, continued *)

(** X14.  When [T * total_size] fits the signed 64-bit word of line 250,
    the regions that the offsets cut in the training file are balanced
    and cover it: the offsets of two consecutive workers differ by
    [total_size / T] or by one byte more, and the offset that a worker of
    index [T] would get is [total_size] itself. *)
Theorem partition_offset_balanced (T total_size : Z) :
  0 < T -> 0 <= total_size ->
  T * total_size < 9223372036854775808 ->
  partition_offset T total_size T = total_size /\
  forall i : Z, 0 <= i -> i < T ->
    total_size / T
      <= partition_offset (i + 1) total_size T - partition_offset i total_size T
      <= total_size / T + 1.
Proof.
  intros HT HS Hb. split.
  - rewrite partition_offset_div by lia. unfold partition_offset_exact.
    rewrite (Z.mul_comm T total_size). apply Z.div_mul. lia.
  - intros i Hi HiT. rewrite !partition_offset_div by nia.
    unfold partition_offset_exact.
    replace ((i + 1) * total_size) with (i * total_size + total_size) by lia.
    set (x := i * total_size).
    assert (Hx : 0 <= x) by (unfold x; nia).
    pose proof (Z.mul_div_le x T HT) as L1.
    pose proof (Z.mul_div_le total_size T HT) as L2.
    pose proof (Z.mul_succ_div_gt x T HT) as U1.
    pose proof (Z.mul_succ_div_gt total_size T HT) as U2.
    assert (Hlow : x / T + total_size / T <= (x + total_size) / T)
      by (apply Z.div_le_lower_bound; lia).
    assert (Hup : (x + total_size) / T < x / T + total_size / T + 2)
      by (apply Z.div_lt_upper_bound; lia).
    lia.
Qed.

(** ** loadVectors *)

Lemma list_store_length {A : Type} (l : list A) (k : nat) (x : A) :
  length (list_store l k x) = length l.
Proof.
  revert k; induction l as [|y l IH]; intro k; [reflexivity|].
  destruct k; cbn [list_store length]; [reflexivity|now rewrite IH].
Qed.

Lemma list_store_nth {A : Type} (l : list A) (k q : nat) (x d : A) :
  (q < length l)%nat ->
  nth q (list_store l k x) d = if Nat.eqb k q then x else nth q l d.
Proof.
  revert k q; induction l as [|y l IH]; intros k q Hq; [cbn in Hq; lia|].
  destruct k, q; cbn [list_store nth Nat.eqb]; try reflexivity.
  apply IH. cbn in Hq. lia.
Qed.

Section LoadVectorsFacts.
Context {R : Type} {RO : RealOps R}.
Context {G : Type} {D : Type} {DO : DictionaryOps D}.
Variable getId : D -> string -> Z.

Lemma Matrix_store_shape (A : Matrix R) (k : Z) (x : R) :
  n_ (Matrix_store A k x) = n_ A /\
  length (data_ (Matrix_store A k x)) = length (data_ A).
Proof.
  unfold Matrix_store. destruct (k <? 0); cbn [n_ data_]; [tauto|].
  now rewrite list_store_length.
Qed.

Lemma Matrix_store_at (A : Matrix R) (k q : Z) (x : R) :
  0 <= q < size (data_ A) ->
  at_index rzero (data_ (Matrix_store A k x)) q =
  if k =? q then x else at_index rzero (data_ A) q.
Proof.
  intro Hq. unfold Matrix_store, at_index, size in *.
  destruct (Z.ltb_spec q 0); [lia|].
  destruct (Z.ltb_spec k 0).
  - destruct (Z.eqb_spec k q); [lia|reflexivity].
  - cbn [data_]. rewrite list_store_nth by lia.
    destruct (Z.eqb_spec k q) as [->|Hne].
    + now rewrite Nat.eqb_refl.
    + destruct (Nat.eqb_spec (Z.to_nat k) (Z.to_nat q)); [lia|reflexivity].
Qed.

Lemma copy_row_fold (pt : Pretrained R) (dim_ idx i : Z) (js : list Z)
    (inp : Matrix R) (q : Z) :
  0 <= q < size (data_ inp) ->
  let out :=
    fold_left
      (fun inp j =>
         Matrix_store inp (idx * dim_ + j) (at_index rzero (pt_data pt) (i * dim_ + j)))
      js inp in
  n_ out = n_ inp /\ length (data_ out) = length (data_ inp) /\
  at_index rzero (data_ out) q =
    if existsb (fun j => idx * dim_ + j =? q) js
    then at_index rzero (pt_data pt) (i * dim_ + (q - idx * dim_))
    else at_index rzero (data_ inp) q.
Proof.
  cbv zeta. revert inp; induction js as [|j js IH]; intros inp Hq;
    cbn [fold_left existsb]; [tauto|].
  destruct (Matrix_store_shape inp (idx * dim_ + j)
              (at_index rzero (pt_data pt) (i * dim_ + j))) as [Hn Hl].
  destruct (IH (Matrix_store inp (idx * dim_ + j)
                  (at_index rzero (pt_data pt) (i * dim_ + j))))
    as (Hn' & Hl' & Hat).
  { unfold size in *. now rewrite Hl. }
  rewrite Hn', Hl', Hat, Hn, Hl. split; [reflexivity|]. split; [reflexivity|].
  rewrite Matrix_store_at by exact Hq.
  destruct (existsb (fun j0 => idx * dim_ + j0 =? q) js);
    [now rewrite orb_true_r|].
  rewrite orb_false_r.
  destruct (Z.eqb_spec (idx * dim_ + j) q) as [E|_]; [|reflexivity].
  f_equal. lia.
Qed.

(** One row copied: the entries of row [idx] take the values of file row
    [i]; every other entry is left as it was. *)
Lemma copy_row_at (pt : Pretrained R) (dim_ idx i : Z) (inp : Matrix R) (r j : Z) :
  0 < dim_ -> 0 <= idx -> 0 <= r -> 0 <= j < dim_ ->
  r * dim_ + j < size (data_ inp) ->
  n_ (copy_row inp pt dim_ idx i) = n_ inp /\
  length (data_ (copy_row inp pt dim_ idx i)) = length (data_ inp) /\
  at_index rzero (data_ (copy_row inp pt dim_ idx i)) (r * dim_ + j) =
    if idx =? r
    then at_index rzero (pt_data pt) (i * dim_ + j)
    else at_index rzero (data_ inp) (r * dim_ + j).
Proof.
  intros Hd Hidx Hr Hj Hq. unfold copy_row.
  destruct (copy_row_fold pt dim_ idx i (zrange 0 (Z.to_nat dim_)) inp (r * dim_ + j))
    as (Hn & Hl & Hat); [nia|].
  cbv zeta in Hn, Hl, Hat. rewrite Hn, Hl, Hat.
  split; [reflexivity|]. split; [reflexivity|].
  destruct (Z.eqb_spec idx r) as [->|Hne].
  - replace (existsb (fun j0 => r * dim_ + j0 =? r * dim_ + j) (zrange 0 (Z.to_nat dim_)))
      with true.
    + f_equal. lia.
    + symmetry. apply existsb_exists. exists j. split; [apply zrange_In; lia|].
      apply Z.eqb_refl.
  - replace (existsb (fun j0 => idx * dim_ + j0 =? r * dim_ + j) (zrange 0 (Z.to_nat dim_)))
      with false; [reflexivity|].
    symmetry. apply not_true_is_false. intro E.
    apply existsb_exists in E. destruct E as [j0 [Hin E]].
    apply zrange_In in Hin. apply Z.eqb_eq in E.
    assert (idx = r) by nia. contradiction.
Qed.

Lemma copy_rows_at (d : D) (pt : Pretrained R) (rows : list Z) (inp : Matrix R)
    (r j : Z) :
  0 < pt_dim pt -> 0 <= r -> 0 <= j < pt_dim pt ->
  r * pt_dim pt + j < size (data_ inp) ->
  n_ (copy_rows getId d inp pt rows) = n_ inp /\
  length (data_ (copy_rows getId d inp pt rows)) = length (data_ inp) /\
  at_index rzero (data_ (copy_rows getId d inp pt rows)) (r * pt_dim pt + j) =
    match row_source getId d (pt_words pt) rows r with
    | Some i => at_index rzero (pt_data pt) (i * pt_dim pt + j)
    | None => at_index rzero (data_ inp) (r * pt_dim pt + j)
    end.
Proof.
  intros Hd Hr Hj. revert inp; induction rows as [|i rows IH]; intros inp Hq;
    cbn [copy_rows fold_left row_source]; [tauto|].
  fold (copy_rows getId d) in *.
  set (idx := getId d (nth (Z.to_nat i) (pt_words pt) String.EmptyString)).
  destruct ((idx <? 0) || (nwords d <=? idx)) eqn:Hbad; cbn [negb andb].
  - change (fold_left _ rows inp) with (copy_rows getId d inp pt rows).
    destruct (IH inp Hq) as (Hn & Hl & Hat). rewrite Hn, Hl, Hat.
    split; [reflexivity|]. split; [reflexivity|].
    now destruct (row_source getId d (pt_words pt) rows r).
  - apply orb_false_iff in Hbad. destruct Hbad as [Hneg _].
    apply Z.ltb_ge in Hneg.
    destruct (copy_row_at pt (pt_dim pt) idx i inp r j Hd Hneg Hr Hj Hq)
      as (Hn1 & Hl1 & Hat1).
    change (fold_left _ rows (copy_row inp pt (pt_dim pt) idx i))
      with (copy_rows getId d (copy_row inp pt (pt_dim pt) idx i) pt rows).
    destruct (IH (copy_row inp pt (pt_dim pt) idx i)) as (Hn & Hl & Hat).
    { unfold size in *. now rewrite Hl1. }
    rewrite Hn, Hl, Hat, Hn1, Hl1.
    split; [reflexivity|]. split; [reflexivity|].
    destruct (row_source getId d (pt_words pt) rows r); [reflexivity|].
    rewrite Hat1. now destruct (idx =? r).
Qed.

Lemma row_source_none (d : D) (words : list string) (rows : list Z) (r : Z) :
  (forall i, In i rows ->
     getId d (nth (Z.to_nat i) words String.EmptyString) <> r \/ nwords d <= r) ->
  row_source getId d words rows r = None.
Proof.
  induction rows as [|i rows IH]; intro H; [reflexivity|].
  cbn [row_source]. rewrite IH by (intros i' Hi'; apply H; now right).
  cbv zeta.
  destruct (H i (or_introl eq_refl)) as [Hne|Hge].
  - destruct (Z.eqb_spec (getId d (nth (Z.to_nat i) words String.EmptyString)) r);
      [contradiction|now rewrite andb_false_r].
  - destruct (Z.eqb_spec (getId d (nth (Z.to_nat i) words String.EmptyString)) r)
      as [E|_]; [|now rewrite andb_false_r].
    rewrite E. destruct (Z.leb_spec (nwords d) r); [|lia].
    now rewrite orb_true_r.
Qed.

Lemma row_source_last (d : D) (words : list string) (pre post : list Z) (i r : Z) :
  getId d (nth (Z.to_nat i) words String.EmptyString) = r ->
  0 <= r < nwords d ->
  (forall i', In i' post ->
     getId d (nth (Z.to_nat i') words String.EmptyString) <> r) ->
  row_source getId d words (pre ++ i :: post) r = Some i.
Proof.
  intros Hi Hr Hpost. induction pre as [|p pre IH]; cbn [app row_source].
  - rewrite row_source_none by (intros i' Hi'; left; now apply Hpost).
    cbv zeta. rewrite Hi, Z.eqb_refl.
    destruct (Z.ltb_spec r 0); [lia|]. destruct (Z.leb_spec (nwords d) r); [lia|].
    reflexivity.
  - now rewrite IH.
Qed.

Lemma copy_row_shape (pt : Pretrained R) (dim_ idx i : Z) (inp : Matrix R) :
  n_ (copy_row inp pt dim_ idx i) = n_ inp /\
  length (data_ (copy_row inp pt dim_ idx i)) = length (data_ inp).
Proof.
  unfold copy_row. generalize (zrange 0 (Z.to_nat dim_)) as js. intro js.
  revert inp; induction js as [|j js IH]; intro inp; cbn [fold_left]; [tauto|].
  destruct (IH (Matrix_store inp (idx * dim_ + j)
                  (at_index rzero (pt_data pt) (i * dim_ + j)))) as [Hn Hl].
  rewrite Hn, Hl. apply Matrix_store_shape.
Qed.

Lemma copy_rows_shape (d : D) (pt : Pretrained R) (rows : list Z) (inp : Matrix R) :
  n_ (copy_rows getId d inp pt rows) = n_ inp /\
  length (data_ (copy_rows getId d inp pt rows)) = length (data_ inp).
Proof.
  unfold copy_rows.
  revert inp; induction rows as [|i rows IH]; intro inp; cbn [fold_left]; [tauto|].
  destruct ((getId d (nth (Z.to_nat i) (pt_words pt) String.EmptyString) <? 0)
            || (nwords d <=? getId d (nth (Z.to_nat i) (pt_words pt) String.EmptyString))).
  - apply IH.
  - destruct (IH (copy_row inp pt (pt_dim pt)
                    (getId d (nth (Z.to_nat i) (pt_words pt) String.EmptyString)) i))
      as [Hn Hl].
    rewrite Hn, Hl. apply copy_row_shape.
Qed.

End LoadVectorsFacts.

Section LoadVectorsTheorems.
Context {R : Type} {RO : RealOps R}.
Context {G : Type} {D : Type} {DO : DictionaryOps D}.
Variable getId : D -> string -> Z.
Variable Dictionary_add : D -> string -> D.
Variable Dictionary_threshold : D -> Z -> Z -> D.
Variable Matrix_uniform : Z -> Z -> R -> Matrix R.

(** X17.  After a successful [loadVectors] the configuration and the
    output matrix are unchanged, the vocabulary is the old one with every
    word of the file added and then thresholded, and the input matrix is
    the freshly initialised one in which row [r] holds the values of file
    row [i] whenever the word of row [i] has id [r] among the words of
    the vocabulary and no later file row has a word with the same id.
    A row whose index is the id of no word of the file, and every bucket
    row, keeps its initial values. *)
Theorem loadVectors_overwrites_listed_rows (ft ft' : @FastText R G D)
    (pt : Pretrained R) :
  (forall m n a, n_ (Matrix_uniform m n a) = n) ->
  0 < dim (args_ ft) ->
  loadVectors getId Dictionary_add Dictionary_threshold Matrix_uniform ft (Some pt)
    = Some ft' ->
  let d := Dictionary_threshold (fold_left Dictionary_add (pt_words pt) (dict_ ft)) 1 0 in
  let init := Matrix_uniform (nwords d + bucket (args_ ft)) (dim (args_ ft))
                (rdiv rone (of_int (dim (args_ ft)))) in
  let word_id := fun i => getId d (nth (Z.to_nat i) (pt_words pt) String.EmptyString) in
  args_ ft' = args_ ft /\ output_ ft' = output_ ft /\ dict_ ft' = d /\
  n_ (input_ ft') = dim (args_ ft) /\
  length (data_ (input_ ft')) = length (data_ init) /\
  forall r j : Z,
    0 <= r -> 0 <= j < dim (args_ ft) ->
    r * dim (args_ ft) + j < size (data_ init) ->
    ((forall i, 0 <= i < pt_n pt -> word_id i <> r \/ nwords d <= r) ->
     Matrix_at (input_ ft') r j = Matrix_at init r j) /\
    (forall i, 0 <= i < pt_n pt -> word_id i = r -> r < nwords d ->
       (forall i', i < i' < pt_n pt -> word_id i' <> r) ->
       Matrix_at (input_ ft') r j =
       at_index rzero (pt_data pt) (i * dim (args_ ft) + j)).
Proof.
  intros Hshape Hdim Hload. cbv zeta.
  unfold loadVectors in Hload.
  destruct (Z.eqb_spec (pt_dim pt) (dim (args_ ft))) as [Edim|]; [|discriminate].
  cbn [negb] in Hload.
  destruct ((pt_n pt <? 0) || ((pt_dim pt <? 0) && (0 <? pt_n pt))); [discriminate|].
  cbv zeta in Hload. injection Hload as <-.
  cbn [args_ output_ dict_ input_].
  set (d := Dictionary_threshold (fold_left Dictionary_add (pt_words pt) (dict_ ft)) 1 0).
  set (init := Matrix_uniform (nwords d + bucket (args_ ft)) (dim (args_ ft))
                 (rdiv rone (of_int (dim (args_ ft))))).
  assert (Hn0 : n_ init = dim (args_ ft)) by apply Hshape.
  split; [reflexivity|]. split; [reflexivity|]. split; [reflexivity|].
  pose proof (copy_rows_shape getId d pt (zrange 0 (Z.to_nat (pt_n pt))) init) as Hshape'.
  destruct Hshape' as [Hn Hl].
  split; [now rewrite Hn|]. split; [exact Hl|].
  intros r j Hr Hj Hq.
  assert (Hat : Matrix_at (copy_rows getId d init pt (zrange 0 (Z.to_nat (pt_n pt)))) r j =
                match row_source getId d (pt_words pt) (zrange 0 (Z.to_nat (pt_n pt))) r with
                | Some i => at_index rzero (pt_data pt) (i * dim (args_ ft) + j)
                | None => Matrix_at init r j
                end).
  { unfold Matrix_at. rewrite Hn, Hn0, <- Edim.
    apply (copy_rows_at getId d pt (zrange 0 (Z.to_nat (pt_n pt))) init r j); lia. }
  split.
  - intro Hnone. rewrite Hat, row_source_none; [reflexivity|].
    intros i Hi. apply zrange_In in Hi. apply Hnone. lia.
  - intros i Hi Hid Hrn Hlater. rewrite Hat.
    replace (zrange 0 (Z.to_nat (pt_n pt)))
      with (zrange 0 (Z.to_nat i) ++ i :: zrange (i + 1) (Z.to_nat (pt_n pt - i - 1))).
    + rewrite (row_source_last getId d (pt_words pt)); [reflexivity|exact Hid|lia|].
      intros i' Hi'. apply zrange_In in Hi'. apply Hlater. lia.
    + replace (Z.to_nat (pt_n pt)) with (Z.to_nat i + S (Z.to_nat (pt_n pt - i - 1)))%nat
        by lia.
      rewrite zrange_app. cbn [zrange]. f_equal.
      replace (0 + Z.of_nat (Z.to_nat i)) with i by lia. reflexivity.
Qed.

End LoadVectorsTheorems.


(** * The further properties at concrete inputs *)

Lemma getVector_ignores_buffer_content_witness :
  length [5; 5]%Q = length [0; 0]%Q /\
  getVector (abc_ft model_name.sg) [5; 5]%Q "b"%string =
  getVector (abc_ft model_name.sg) [0; 0]%Q "b"%string.
Proof.
  split; [reflexivity|].
  apply (proj1 (getVector_ignores_buffer_content (abc_ft model_name.sg)
                  [5; 5]%Q [0; 0]%Q "b"%string "a"%string eq_refl)).
Defined.

Lemma saveVectors_lists_every_word_witness :
  0 <= nwords (dict_ (abc_ft model_name.sg)) /\
  size (snd (saveVectors small_getWord (abc_ft model_name.sg) [5; 5]%Q)) =
  nwords (dict_ (abc_ft model_name.sg)).
Proof.
  assert (H : 0 <= nwords (dict_ (abc_ft model_name.sg))) by (vm_compute; discriminate).
  split; [exact H|].
  apply (proj1 (proj2 (proj2 (saveVectors_lists_every_word small_getWord
                                (abc_ft model_name.sg) [5; 5]%Q H)))).
Defined.

Lemma textVectors_mean_witness :
  length (textVectors (abc_ft model_name.sup) [5; 5]%Q abc_stream) = length abc_stream.
Proof.
  apply (proj1 (textVectors_mean (abc_ft model_name.sup) [5; 5]%Q abc_stream)).
Defined.

Lemma predict_replaces_predictions_witness :
  addNgrams (dict_ (abc_ft model_name.sup)) (fst (hd wordless_example one_line_stream))
    (wordNgrams (args_ (abc_ft model_name.sup))) <> [] /\
  predict always_first (abc_ft model_name.sup) one_line_stream 1
    [((0 # 1)%Q, "stale"%string)] =
  ([], [((-1 # 2)%Q, "__label__x"%string)]).
Proof.
  assert (H : addNgrams (dict_ (abc_ft model_name.sup))
                (fst (hd wordless_example one_line_stream))
                (wordNgrams (args_ (abc_ft model_name.sup))) <> []) by discriminate.
  split; [exact H|].
  apply (predict_replaces_predictions always_first (abc_ft model_name.sup)
           (hd wordless_example one_line_stream) [] 1 [((0 # 1)%Q, "stale"%string)] H).
Defined.

Lemma predict_print_wordless_line_repeats_witness :
  addNgrams (dict_ (abc_ft model_name.sup)) (fst wordless_example)
    (wordNgrams (args_ (abc_ft model_name.sup))) = [] /\
  predict_print always_first (fun x => x) no_show (abc_ft model_name.sup)
    (one_line_stream ++ [wordless_example]) 1 false =
  predict_print always_first (fun x => x) no_show (abc_ft model_name.sup)
    one_line_stream 1 false ++
  [last (predict_print always_first (fun x => x) no_show (abc_ft model_name.sup)
           one_line_stream 1 false) "n/a"%string].
Proof.
  assert (Hex : addNgrams (dict_ (abc_ft model_name.sup)) (fst wordless_example)
                  (wordNgrams (args_ (abc_ft model_name.sup))) = []) by reflexivity.
  split; [exact Hex|].
  apply (predict_print_wordless_line_repeats always_first (fun x => x) no_show
           (abc_ft model_name.sup) one_line_stream wordless_example 1 false Hex).
Defined.

Lemma test_ignores_incomplete_lines_witness :
  addNgrams_keeps_emptiness SmallDict /\
  test parity_classifier (abc_ft model_name.sup) abc_stream 1 =
  test parity_classifier (abc_ft model_name.sup) (filter has_both abc_stream) 1.
Proof.
  split; [exact small_dictionary_keeps_emptiness|].
  apply (test_ignores_incomplete_lines parity_classifier (abc_ft model_name.sup)
           abc_stream 1 small_dictionary_keeps_emptiness).
Defined.

Lemma parity_classifier_at_most_one (words : list Z) :
  size (parity_classifier words 1) <= 1.
Proof. unfold parity_classifier, size. simpl. lia. Qed.

Lemma test_precision_in_unit_interval_witness :
  addNgrams_keeps_emptiness SmallDict /\ 0 < 1 /\
  1 * size abc_stream < 2147483648 /\
  (forall words, size (parity_classifier words 1) <= 1) /\
  filter has_both abc_stream <> [] /\
  (0 <= P_at_k (test parity_classifier (abc_ft model_name.sup) abc_stream 1))%Q /\
  (P_at_k (test parity_classifier (abc_ft model_name.sup) abc_stream 1) <= 1)%Q.
Proof.
  assert (Hne : filter has_both abc_stream <> []) by discriminate.
  assert (Hfit : 1 * size abc_stream < 2147483648) by (vm_compute; reflexivity).
  split; [exact small_dictionary_keeps_emptiness|].
  split; [lia|]. split; [exact Hfit|]. split; [exact parity_classifier_at_most_one|].
  split; [exact Hne|].
  apply (proj2 (test_precision_in_unit_interval parity_classifier
                  (abc_ft model_name.sup) abc_stream 1
                  small_dictionary_keeps_emptiness ltac:(lia) Hfit
                  parity_classifier_at_most_one) Hne).
Defined.



Lemma printInfo_eta_hours_minutes_witness :
  0 <= Q_to_int (rdiv (rmul (rdiv (10000 # 1)%Q (1 # 4)%Q) (rsub rone (1 # 4)%Q))
                   (of_int (thread (args_ (abc_ft model_name.sup))))) /\
  0 <= info_etam (printInfo Q_to_int (abc_ft model_name.sup) (10000 # 1)%Q 500
                    (1 # 4)%Q (2 # 1)%Q) < 60.
Proof.
  assert (H : 0 <= Q_to_int (rdiv (rmul (rdiv (10000 # 1)%Q (1 # 4)%Q)
                                     (rsub rone (1 # 4)%Q))
                               (of_int (thread (args_ (abc_ft model_name.sup))))))
    by (vm_compute; discriminate).
  split; [exact H|].
  apply (proj1 (proj2 (printInfo_eta_hours_minutes Q_to_int (abc_ft model_name.sup)
                         (10000 # 1)%Q 500 (1 # 4)%Q (2 # 1)%Q H))).
Defined.

Lemma partition_offset_balanced_witness :
  0 < 4 /\ 0 <= 10 /\ 4 * 10 < 9223372036854775808 /\
  partition_offset 4 10 4 = 10 /\
  10 / 4 <= partition_offset (1 + 1) 10 4 - partition_offset 1 10 4 <= 10 / 4 + 1.
Proof.
  split; [lia|]. split; [lia|]. split; [lia|].
  split.
  - apply (proj1 (partition_offset_balanced 4 10 ltac:(lia) ltac:(lia) ltac:(lia))).
  - apply (proj2 (partition_offset_balanced 4 10 ltac:(lia) ltac:(lia) ltac:(lia)) 1); lia.
Defined.

Lemma flat_uniform_columns (m n : Z) (a : Q) : n_ (flat_uniform m n a) = n.
Proof. reflexivity. Qed.

Lemma loadVectors_overwrites_listed_rows_witness :
  (forall m n a, n_ (flat_uniform m n a) = n) /\
  0 < dim (args_ (abc_ft model_name.sg)) /\
  loadVectors small_getId small_add small_threshold flat_uniform
    (abc_ft model_name.sg) (Some abc_pretrained) = Some abc_loaded /\
  Matrix_at (input_ abc_loaded) 1 0 = 7%Q /\
  Matrix_at (input_ abc_loaded) 0 1 = (1 # 2)%Q.
Proof.
  assert (Hdim : 0 < dim (args_ (abc_ft model_name.sg))) by (simpl; lia).
  assert (Hload : loadVectors small_getId small_add small_threshold flat_uniform
                    (abc_ft model_name.sg) (Some abc_pretrained) = Some abc_loaded)
    by reflexivity.
  split; [exact flat_uniform_columns|]. split; [exact Hdim|]. split; [exact Hload|].
  pose proof (loadVectors_overwrites_listed_rows small_getId small_add small_threshold
                flat_uniform (abc_ft model_name.sg) abc_loaded abc_pretrained
                flat_uniform_columns Hdim Hload) as H.
  cbv zeta in H. destruct H as (_ & _ & _ & _ & _ & Hrows).
  split.
  - destruct (Hrows 1 0) as [_ Hcopy]; [lia|simpl; lia|vm_compute; reflexivity|].
    apply (Hcopy 0); [simpl; lia|reflexivity|vm_compute; reflexivity|].
    intros i' Hi'. assert (E : i' = 1) by (simpl in Hi'; lia). subst i'.
    vm_compute. discriminate.
  - destruct (Hrows 0 1) as [Hkeep _]; [lia|simpl; lia|vm_compute; reflexivity|].
    apply Hkeep. intros i Hi. left.
    assert (E : i = 0 \/ i = 1) by (simpl in Hi; lia).
    destruct E as [-> | ->]; vm_compute; discriminate.
Defined.
